(** * PomodoroAPP: the timer engine and the weekly statistics of [app.py]

    A shallow embedding of [PomodoroTimer] (the countdown state machine) and
    of [StatsWindow._update_display] (the per-weekday aggregation of the
    recorded sessions), followed by the properties proved about them.

    Python values are modelled as follows.
    - [int] is [Z] (unbounded, [%] is floor modulo, i.e. [Z.modulo]).
    - [str] is [string]; [==] on strings is [String.eqb].
    - the settings [dict] is a [gmap string Z] of its integer entries; a
      subscript on a missing key raises [KeyError].  The boolean entry
      ["auto_start"] is never read by [PomodoroTimer] and is left out.
    - an object with mutable attributes is a record threaded through a
      state-and-exception monad: an exception keeps the attribute writes that
      happened before it was raised.
    - [datetime.date] is its proleptic Gregorian ordinal, restricted to the
      range [date.min .. date.max]; arithmetic leaving it raises
      [OverflowError]. *)

From Stdlib Require Import ZArith Lia Bool Ascii String.
From Stdlib Require Import DecimalString DecimalZ DecimalPos.
From stdpp Require Import gmap strings list.

Local Open Scope string_scope.
Local Open Scope Z_scope.

(** ** Exceptions and the state-and-exception monad *)

Module Py.

Inductive exn : Type :=
| KeyError (key : string)
| ZeroDivisionError
| OverflowError
| ValueError
| IndexError.

Inductive outcome (A : Type) : Type :=
| Done (a : A)
| Raised (e : exn).
Arguments Done {A} a.
Arguments Raised {A} e.

Definition obind {A B} (o : outcome A) (k : A -> outcome B) : outcome B :=
  match o with
  | Done a => k a
  | Raised e => Raised e
  end.

(** A method of an object of type [S]: it returns the object as the call
    left it, together with the value returned or the exception raised. *)
Definition M (S A : Type) : Type := S -> S * outcome A.

Definition ret {S A} (a : A) : M S A := fun s => (s, Done a).

Definition bind {S A B} (m : M S A) (k : A -> M S B) : M S B :=
  fun s =>
    match m s with
    | (s', Done a) => k a s'
    | (s', Raised e) => (s', Raised e)
    end.

Definition lift {S A} (o : outcome A) : M S A := fun s => (s, o).

Definition gets {S A} (f : S -> A) : M S A := fun s => (s, Done (f s)).

Definition modify {S} (f : S -> S) : M S unit := fun s => (f s, Done tt).

(** [d[k]] on a dictionary. *)
Definition getitem {V} (d : gmap string V) (k : string) : outcome V :=
  match d !! k with
  | Some v => Done v
  | None => Raised (KeyError k)
  end.

(** [a % b] on integers. *)
Definition mod_ (a b : Z) : outcome Z :=
  if b =? 0 then Raised ZeroDivisionError else Done (a mod b).

End Py.

Import Py.

Declare Scope py_scope.
Delimit Scope py_scope with py.
Notation "'let*' x := m 'in' k" := (bind m (fun x => k))
  (at level 10, x name, m at level 100, k at level 200) : py_scope.
Notation "m ;;; k" := (bind m (fun _ => k))
  (at level 100, k at level 200, right associativity) : py_scope.

(** ** [class PomodoroTimer] *)

Module PomodoroTimer.

Record timer : Type := Timer {
  settings : gmap string Z;
  state : string;
  session_type : string;
  time_left : Z;
  completed_sessions : Z
}.

Definition set_state (v : string) (t : timer) : timer :=
  Timer (settings t) v (session_type t) (time_left t) (completed_sessions t).
Definition set_session_type (v : string) (t : timer) : timer :=
  Timer (settings t) (state t) v (time_left t) (completed_sessions t).
Definition set_time_left (v : Z) (t : timer) : timer :=
  Timer (settings t) (state t) (session_type t) v (completed_sessions t).
Definition set_completed_sessions (v : Z) (t : timer) : timer :=
  Timer (settings t) (state t) (session_type t) (time_left t) v.

(** [self.settings[k]] *)
Definition setting (k : string) : M timer Z :=
  fun t => (t, getitem (settings t) k).

Local Open Scope py_scope.

Definition reset : M timer unit :=
  modify (set_state "idle") ;;;
  modify (set_session_type "work") ;;;
  let* d := setting "work_duration" in
  modify (set_time_left (d * 60)) ;;;
  modify (set_completed_sessions 0).

Definition start : M timer unit :=
  let* s := gets state in
  if negb (s =? "running")%string
  then modify (set_state "running")
  else ret tt.

Definition pause : M timer unit :=
  let* s := gets state in
  if (s =? "running")%string
  then modify (set_state "paused")
  else ret tt.

Definition key_map : gmap string string :=
  list_to_map [("work", "work_duration");
               ("short_break", "short_break");
               ("long_break", "long_break")].

Definition _get_duration_for_session : M timer Z :=
  let* st := gets session_type in
  let* duration_key := lift (getitem key_map st) in
  let* d := setting duration_key in
  ret (d * 60).

Definition set_session (new_type : string) : M timer unit :=
  modify (set_state "idle") ;;;
  modify (set_session_type new_type) ;;;
  let* d := _get_duration_for_session in
  modify (set_time_left d).

(** [tick] returns [None], ["work_complete"] or ["break_complete"]. *)
Definition tick : M timer (option string) :=
  let* s := gets state in
  let* tl := gets time_left in
  if negb (s =? "running")%string || (tl <=? 0)
  then ret None
  else
    modify (set_time_left (tl - 1)) ;;;
    let* tl' := gets time_left in
    if 0 <? tl'
    then ret None
    else
      modify (set_state "idle") ;;;
      let* st := gets session_type in
      if (st =? "work")%string
      then
        let* c := gets completed_sessions in
        modify (set_completed_sessions (c + 1)) ;;;
        ret (Some "work_complete")
      else ret (Some "break_complete").

Definition get_next_break_type : M timer string :=
  let* sessions_for_long_break := setting "sessions_per_long_break" in
  let* c := gets completed_sessions in
  if c =? 0
  then ret "short_break"
  else
    let* r := lift (mod_ c sessions_for_long_break) in
    if r =? 0
    then ret "long_break"
    else ret "short_break".

(** [PomodoroTimer(settings)]: [__init__] stores the settings and calls
    [reset], which assigns every other attribute; no object exists when it
    raises. *)
Definition __init__ (s : gmap string Z) : outcome timer :=
  match reset (Timer s "" "" 0 0) with
  | (t, Done _) => Done t
  | (_, Raised e) => Raised e
  end.

(** The engine's operations, as a driver invokes them one after another.
    The object survives a call that raised (tkinter reports the exception
    of a callback and keeps running). *)
Inductive op : Type :=
| Reset
| Start
| Pause
| SetSession (new_type : string)
| Tick
| GetNextBreakType.

Definition exec (o : op) (t : timer) : timer :=
  match o with
  | Reset => fst (reset t)
  | Start => fst (start t)
  | Pause => fst (pause t)
  | SetSession s => fst (set_session s t)
  | Tick => fst (tick t)
  | GetNextBreakType => fst (get_next_break_type t)
  end.

Definition run (ops : list op) (t : timer) : timer :=
  foldl (fun acc o => exec o acc) t ops.

(** [n] consecutive calls of [tick]: the timer they leave and the values
    they returned, oldest first. *)
Fixpoint ticks (n : nat) (t : timer) : timer * list (option string) :=
  match n with
  | O => (t, [])
  | S n' =>
      let (t1, evs) := ticks n' t in
      match tick t1 with
      | (t2, Done ev) => (t2, (evs ++ [ev])%list)
      | (t2, Raised _) => (t2, evs)
      end
  end.

End PomodoroTimer.

(** ** The parts of Python's [datetime] module that [app.py] uses

    A [date] is represented by the value of [date.toordinal()]: day 1 is
    0001-01-01 and [_MAXORDINAL] is 9999-12-31.  A [timedelta] is its number
    of days. *)

Module datetime.

Definition _MAXORDINAL : Z := 3652059.

Definition _is_leap (year : Z) : bool :=
  (year mod 4 =? 0) && (negb (year mod 100 =? 0) || (year mod 400 =? 0)).

Definition _days_before_year (year : Z) : Z :=
  let y := year - 1 in
  y * 365 + y / 4 - y / 100 + y / 400.

Definition _DAYS_IN_MONTH : list Z :=
  [-1; 31; 28; 31; 30; 31; 30; 31; 31; 30; 31; 30; 31].

Definition _DAYS_BEFORE_MONTH : list Z :=
  [-1; 0; 31; 59; 90; 120; 151; 181; 212; 243; 273; 304; 334].

Definition _days_in_month (year month : Z) : Z :=
  if (month =? 2) && _is_leap year
  then 29
  else nth (Z.to_nat month) _DAYS_IN_MONTH 0.

Definition _days_before_month (year month : Z) : Z :=
  nth (Z.to_nat month) _DAYS_BEFORE_MONTH 0
  + (if (2 <? month) && _is_leap year then 1 else 0).

Definition _ymd2ord (year month day : Z) : Z :=
  _days_before_year year + _days_before_month year month + day.

(** [date(year, month, day)] *)
Definition date (year month day : Z) : outcome Z :=
  if negb ((1 <=? year) && (year <=? 9999)) then Raised ValueError
  else if negb ((1 <=? month) && (month <=? 12)) then Raised ValueError
  else if negb ((1 <=? day) && (day <=? _days_in_month year month))
  then Raised ValueError
  else Done (_ymd2ord year month day).

(** [d.weekday()]: Monday is 0, Sunday is 6. *)
Definition weekday (d : Z) : Z := (d + 6) mod 7.

(** [timedelta(days=n)] *)
Definition timedelta (days : Z) : outcome Z :=
  if Z.abs days >? 999999999 then Raised OverflowError else Done days.

(** [d + delta] *)
Definition date_add (d delta : Z) : outcome Z :=
  let o := d + delta in
  if (0 <? o) && (o <=? _MAXORDINAL) then Done o else Raised OverflowError.

(** [d - delta] is [d + timedelta(-delta.days)]. *)
Definition date_sub (d delta : Z) : outcome Z :=
  obind (timedelta (- delta)) (date_add d).

(** A [datetime]: its date and its time of day. *)
Record datetime : Type := DateTime {
  dt_date : Z;
  hour : Z;
  minute : Z;
  second : Z;
  microsecond : Z
}.

(** *** A concrete [fromisoformat]

    It accepts the strings [datetime.isoformat()] produces for a naive
    datetime, [YYYY-MM-DDTHH:MM:SS] and [YYYY-MM-DDTHH:MM:SS.ffffff], and
    rejects every other string; Python's parser accepts more forms. *)

Definition digit (c : ascii) : outcome Z :=
  let n := Z.of_N (N_of_ascii c) in
  if (48 <=? n) && (n <=? 57) then Done (n - 48) else Raised ValueError.

Fixpoint digits (acc : Z) (cs : list ascii) : outcome Z :=
  match cs with
  | [] => Done acc
  | c :: cs' => obind (digit c) (fun v => digits (acc * 10 + v) cs')
  end.

Definition parse_fraction (cs : list ascii) : outcome Z :=
  match cs with
  | [] => Done 0
  | "."%char :: ((_ :: _ :: _ :: _ :: _ :: [_]) as f) => digits 0 f
  | _ => Raised ValueError
  end.

Definition in_range (lo hi v : Z) : outcome Z :=
  if (lo <=? v) && (v <=? hi) then Done v else Raised ValueError.

Definition fromisoformat (s : string) : outcome datetime :=
  match list_ascii_of_string s with
  | y1 :: y2 :: y3 :: y4 :: "-"%char :: m1 :: m2 :: "-"%char :: d1 :: d2
    :: "T"%char
    :: h1 :: h2 :: ":"%char :: n1 :: n2 :: ":"%char :: s1 :: s2 :: frac =>
      obind (digits 0 [y1; y2; y3; y4]) (fun y =>
      obind (digits 0 [m1; m2]) (fun m =>
      obind (digits 0 [d1; d2]) (fun d =>
      obind (date y m d) (fun o =>
      obind (obind (digits 0 [h1; h2]) (in_range 0 23)) (fun hh =>
      obind (obind (digits 0 [n1; n2]) (in_range 0 59)) (fun mm =>
      obind (obind (digits 0 [s1; s2]) (in_range 0 59)) (fun ss =>
      obind (parse_fraction frac) (fun us =>
      Done (DateTime o hh mm ss us)))))))))
  | _ => Raised ValueError
  end.

End datetime.

(** ** [StatsWindow._update_display]

    The method reads the clock ([today]), the window's [week_offset] and its
    [sessions], and writes the week's two bounds, the seven counts and their
    sum into labels; the model returns these values.  The parser of the
    stored timestamps is a parameter. *)

Module StatsWindow.

Import datetime.

(** One entry of the [sessions] list: [{"timestamp": ...}]. *)
Record session : Type := Session { timestamp : string }.

Record display : Type := Display {
  start_of_week : Z;
  end_of_week : Z;
  counts_per_day : list Z;
  total : Z
}.

(** [l[i] += 1] on a list, with Python's negative indices. *)
Definition incr_item (l : list Z) (i : Z) : outcome (list Z) :=
  let j := if i <? 0 then i + Z.of_nat (length l) else i in
  if j <? 0 then Raised IndexError
  else
    match l !! Z.to_nat j with
    | Some c => Done (<[Z.to_nat j := c + 1]> l)
    | None => Raised IndexError
    end.

(** [sum(l)] *)
Definition sum (l : list Z) : Z := foldl Z.add 0 l.

Section Aggregation.

Variable parse : string -> outcome datetime.

(** The [for session in self.sessions] loop. *)
Fixpoint count_sessions (start_ end_ : Z) (sessions : list session)
    (counts : list Z) : outcome (list Z) :=
  match sessions with
  | [] => Done counts
  | s :: rest =>
      obind (parse (timestamp s)) (fun dt =>
        let session_date := dt_date dt in
        if (start_ <=? session_date) && (session_date <=? end_)
        then
          let day_index := weekday session_date in
          obind (incr_item counts day_index)
                (count_sessions start_ end_ rest)
        else count_sessions start_ end_ rest counts)
  end.

Definition _update_display (today week_offset : Z) (sessions : list session)
    : outcome display :=
  obind (timedelta (weekday today)) (fun back =>
  obind (date_sub today back) (fun monday =>
  obind (timedelta (7 * week_offset)) (fun shift =>
  obind (date_add monday shift) (fun start_ =>
  obind (timedelta 6) (fun six =>
  obind (date_add start_ six) (fun end_ =>
  obind (count_sessions start_ end_ sessions (replicate 7 0)) (fun counts =>
  Done (Display start_ end_ counts (sum counts))))))))).

End Aggregation.

End StatsWindow.

(** ** Counting by hand, for the statements about the weekly aggregation *)

Module WeekSpec.

Import datetime StatsWindow.

(** The calendar date of a session, when its timestamp parses. *)
Definition date_of (parse : string -> outcome datetime) (s : session)
    : option Z :=
  match parse (timestamp s) with
  | Done dt => Some (dt_date dt)
  | Raised _ => None
  end.

(** The session's date lies in [[start_, start_ + 6]]. *)
Definition in_week (parse : string -> outcome datetime) (start_ : Z)
    (s : session) : bool :=
  match date_of parse s with
  | Some d => (start_ <=? d) && (d <=? start_ + 6)
  | None => false
  end.

(** The session lies in the week and on weekday [i]. *)
Definition on_day (parse : string -> outcome datetime) (start_ i : Z)
    (s : session) : bool :=
  match date_of parse s with
  | Some d => (start_ <=? d) && (d <=? start_ + 6) && (weekday d =? i)
  | None => false
  end.

(** How many elements of [l] satisfy [f]. *)
Definition how_many {A} (f : A -> bool) (l : list A) : Z :=
  Z.of_nat (length (List.filter f l)).

End WeekSpec.

(** ** Settings used in the examples *)

Definition TIMER_DEFAULTS : gmap string Z :=
  list_to_map [("work_duration", 25); ("short_break", 5);
               ("long_break", 15); ("sessions_per_long_break", 4)].

(** One-minute work sessions and a long break after every session. *)
Definition every_session_settings : gmap string Z :=
  list_to_map [("work_duration", 1); ("short_break", 5);
               ("long_break", 15); ("sessions_per_long_break", 1)].

(** ** [format_time] *)

Module Utility.

(** [str(n)] of an integer: its decimal digits, with a leading [-] when
    negative. *)
Definition str (n : Z) : string := NilZero.string_of_int (Z.to_int n).

Definition zeros (k : nat) : string :=
  string_of_list_ascii (replicate k "0"%char).

(** [f"{n:02d}"]: sign first, then zeros up to a total width of 2, then
    the digits. *)
Definition format_02d (n : Z) : string :=
  let digs := str (Z.abs n) in
  if n <? 0
  then ("-" ++ zeros (2 - 1 - String.length digs) ++ digs)%string
  else (zeros (2 - String.length digs) ++ digs)%string.

Definition format_time (seconds : Z) : string :=
  (format_02d (seconds / 60) ++ ":" ++ format_02d (seconds mod 60))%string.

End Utility.

(** Reading a clock face back, for the statements about [format_time]:
    the text before the first colon and the text after it, both as
    unsigned decimal numbers. *)

Module ClockSpec.

Fixpoint split_colon (s : string) : option (string * string) :=
  match s with
  | EmptyString => None
  | String c rest =>
      if Ascii.eqb c ":" then Some (EmptyString, rest)
      else
        match split_colon rest with
        | Some (a, b) => Some (String c a, b)
        | None => None
        end
  end.

Definition unsigned (s : string) : option Z :=
  option_map Z.of_uint (NilZero.uint_of_string s).

Definition read_clock (s : string) : option Z :=
  match split_colon s with
  | Some (m, sec) =>
      match unsigned m, unsigned sec with
      | Some a, Some b => Some (a * 60 + b)
      | _, _ => None
      end
  | None => None
  end.

End ClockSpec.

(** ** [class MainWindow]

    [self.timer.settings] and [self.app_data["settings"]] are one and the
    same dictionary ([PomodoroTimer(self.app_data["settings"])], and
    [_save_data] assigns it again), so its integer entries are kept in the
    timer; its boolean entry ["auto_start"] is [auto_start], [None] when the
    key is absent.  [self.app_data["sessions"]] is [sessions].  Widgets,
    message boxes, the bell and the data file are not modelled. *)

Module MainWindow.

Import StatsWindow Utility.

Record main_window : Type := Window {
  timer : PomodoroTimer.timer;
  auto_start : option bool;
  sessions : list session
}.

Definition set_timer (t : PomodoroTimer.timer) (w : main_window) : main_window :=
  Window t (auto_start w) (sessions w).
Definition set_auto_start (a : option bool) (w : main_window) : main_window :=
  Window (timer w) a (sessions w).
Definition set_sessions (l : list session) (w : main_window) : main_window :=
  Window (timer w) (auto_start w) l.

(** A call [self.timer.m(...)]. *)
Definition on_timer {A} (m : M PomodoroTimer.timer A) : M main_window A :=
  fun w =>
    match m (timer w) with
    | (t', r) => (set_timer t' w, r)
    end.

(** [self.app_data["settings"]["auto_start"]] *)
Definition get_auto_start : M main_window bool :=
  fun w =>
    match auto_start w with
    | Some b => (w, Done b)
    | None => (w, Raised (KeyError "auto_start"))
    end.

Local Open Scope py_scope.

(** [_save_data()] writes the file (a failure is shown, not raised) and
    assigns [self.timer.settings = self.app_data["settings"]], which is the
    dictionary the timer already holds. *)
Definition _save_data : M main_window unit := ret tt.

Definition toggle_work : M main_window unit :=
  let* ty := gets (fun w => PomodoroTimer.session_type (timer w)) in
  (if negb (ty =? "work")%string
   then on_timer (PomodoroTimer.set_session "work")
   else ret tt) ;;;
  let* s := gets (fun w => PomodoroTimer.state (timer w)) in
  if (s =? "running")%string
  then on_timer PomodoroTimer.pause
  else on_timer PomodoroTimer.start.

Definition toggle_break : M main_window unit :=
  let* ty := gets (fun w => PomodoroTimer.session_type (timer w)) in
  (if (ty =? "work")%string
   then
     let* b := on_timer PomodoroTimer.get_next_break_type in
     on_timer (PomodoroTimer.set_session b)
   else ret tt) ;;;
  let* s := gets (fun w => PomodoroTimer.state (timer w)) in
  if (s =? "running")%string
  then on_timer PomodoroTimer.pause
  else on_timer PomodoroTimer.start.

Definition reset_timer : M main_window unit := on_timer PomodoroTimer.reset.

(** [reset_stats]; [confirmed] is the answer to the yes/no dialog. *)
Definition reset_stats (confirmed : bool) : M main_window unit :=
  if confirmed
  then modify (set_sessions []) ;;; _save_data
  else ret tt.

(** What [_update_ui] writes into the four widgets. *)
Record ui : Type := Ui {
  timer_display : string;
  status_label : string;
  work_button : string;
  break_button : string
}.

(** [ui_map], with the texts of [cfg.STRINGS]. *)
Definition ui_map : gmap string (string * string * string) :=
  list_to_map
    [("work_idle", ("Ready To Work.", "Start Work", "Start Break"));
     ("work_running", ("Working...", "Pause Work", "Start Break"));
     ("work_paused", ("Work Paused", "Start Work", "Start Break"));
     ("break_idle", ("Ready To Work.", "Start Work", "Start Break"));
     ("break_running", ("Break...", "Start Work", "Pause Break"));
     ("break_paused", ("Break Paused", "Start Work", "Start Break"))].

Definition _update_ui : M main_window ui :=
  let* tl := gets (fun w => PomodoroTimer.time_left (timer w)) in
  let display := format_time tl in
  let* ty := gets (fun w => PomodoroTimer.session_type (timer w)) in
  let session_category := if (ty =? "work")%string then "work" else "break" in
  let* s := gets (fun w => PomodoroTimer.state (timer w)) in
  let state_key := (session_category ++ "_" ++ s)%string in
  let* texts := lift (getitem ui_map state_key) in
  match texts with
  | (status_text, work_button_text, break_button_text) =>
      ret (Ui display status_text work_button_text break_button_text)
  end.

(** The ["next"] entries of [completion_details]; [next_break] is the value
    of [self.timer.get_next_break_type()], computed while the dictionary is
    built. *)
Definition completion_details (next_break : string) : gmap string string :=
  list_to_map [("work_complete", next_break); ("break_complete", "work")].

(** One round of [_update_loop].  [now] is [datetime.now().isoformat()].
    The round ends with [self.root.after(1000, ...)], which is reached
    exactly when nothing was raised. *)
Definition _update_loop (now : string) : M main_window ui :=
  let* result := on_timer PomodoroTimer.tick in
  (match result with
   | Some r =>
       if negb (r =? "")%string
       then
         let* next_break := on_timer PomodoroTimer.get_next_break_type in
         match completion_details next_break !! r with
         | Some next =>
             (if (r =? "work_complete")%string
              then
                modify (fun w => set_sessions (sessions w ++ [Session now]) w) ;;;
                _save_data
              else ret tt) ;;;
             let* auto := get_auto_start in
             if auto
             then
               on_timer (PomodoroTimer.set_session next) ;;;
               on_timer PomodoroTimer.start
             else ret tt
         | None => ret tt
         end
       else ret tt
   | None => ret tt
   end) ;;;
  _update_ui.

End MainWindow.

(** ** [class SettingsWindow] *)

Module SettingsWindow.

Import MainWindow Utility.

(** The keys of [self.setting_vars], in the order of [settings_config]. *)
Definition setting_keys : list string :=
  ["work_duration"; "short_break"; "long_break"; "sessions_per_long_break"].

Local Open Scope py_scope.

Definition _toggle_auto_start : M main_window unit :=
  let* is_on := get_auto_start in
  modify (set_auto_start (Some (negb is_on))) ;;;
  _save_data.

(** [self.app_data["settings"][key] = value] *)
Definition setitem_setting (key : string) (value : Z) : M main_window unit :=
  modify (fun w =>
    set_timer
      (PomodoroTimer.Timer
         (<[key := value]> (PomodoroTimer.settings (timer w)))
         (PomodoroTimer.state (timer w))
         (PomodoroTimer.session_type (timer w))
         (PomodoroTimer.time_left (timer w))
         (PomodoroTimer.completed_sessions (timer w))) w).

Section OnSettingsChange.

(** [int(text)] for the text of an entry box; [None] is [ValueError]. *)
Variable int_ : string -> option Z.

(** The [except ValueError] branch: the entry shows the stored value
    again. *)
Definition revert (key : string) : M main_window string :=
  let* old := on_timer (PomodoroTimer.setting key) in
  ret (str old).

(** One pass of the [for key, var in self.setting_vars.items()] loop over
    the entries [(key, text)]; it returns the texts the entries show
    afterwards. *)
Fixpoint check_entries (vars : list (string * string))
    : M main_window (list (string * string)) :=
  match vars with
  | [] => ret []
  | (key, text) :: rest =>
      let* text' :=
        match int_ text with
        | Some value =>
            if value <=? 0
            then revert key
            else setitem_setting key value ;;; ret text
        | None => revert key
        end in
      let* rest' := check_entries rest in
      ret ((key, text') :: rest')
  end.

Definition _on_settings_change (vars : list (string * string))
    : M main_window (list (string * string)) :=
  let* vars' := check_entries vars in
  _save_data ;;;
  ret vars'.

End OnSettingsChange.

End SettingsWindow.

(** ** [StatsWindow]: moving between weeks

    The window's state is [week_offset]; [self.sessions] is the list of the
    application, read when the display is refreshed. *)

Module StatsNavigation.

Import datetime StatsWindow.

Section Navigation.

Variable parse : string -> outcome datetime.
Variable today : Z.
Variable sessions : list session.

Definition _change_week (direction : Z) : M Z display :=
  fun week_offset =>
    (week_offset + direction,
     _update_display parse today (week_offset + direction) sessions).

End Navigation.

End StatsNavigation.

(** ** The application driven by its user and its clock *)

Module App.

Import MainWindow SettingsWindow.

Inductive action : Type :=
| ToggleWork
| ToggleBreak
| ResetTimer
| UpdateLoop (now : string)
| ToggleAutoStart
| SettingsChange (texts : list string)
| ResetStats (confirmed : bool).

Section Perform.

Variable int_ : string -> option Z.

(** The call an action stands for, on the window it finds. *)
Definition call (a : action) (w : main_window) : main_window * outcome unit :=
  match a with
  | ToggleWork => toggle_work w
  | ToggleBreak => toggle_break w
  | ResetTimer => reset_timer w
  | UpdateLoop now =>
      match _update_loop now w with
      | (w', Done _) => (w', Done tt)
      | (w', Raised e) => (w', Raised e)
      end
  | ToggleAutoStart => _toggle_auto_start w
  | SettingsChange texts =>
      match _on_settings_change int_ (zip setting_keys texts) w with
      | (w', Done _) => (w', Done tt)
      | (w', Raised e) => (w', Raised e)
      end
  | ResetStats confirmed => reset_stats confirmed w
  end.

(** The window after a list of actions, and whether each of them returned
    without an exception. *)
Fixpoint perform (acts : list action) (w : main_window) : main_window * bool :=
  match acts with
  | [] => (w, true)
  | a :: rest =>
      match call a w with
      | (w', Done _) => perform rest w'
      | (w', Raised _) => (fst (perform rest w'), false)
      end
  end.

End Perform.

(** The four integer settings are present and positive, as
    [TIMER_DEFAULTS] has them and [_on_settings_change] demands. *)
Definition valid_settings (s : gmap string Z) : Prop :=
  forall k, In k setting_keys -> exists v, s !! k = Some v /\ 0 < v.

(** A window in good order. *)
Definition healthy (w : main_window) : Prop :=
  let t := timer w in
  In (PomodoroTimer.state t) ["idle"; "running"; "paused"] /\
  In (PomodoroTimer.session_type t) ["work"; "short_break"; "long_break"] /\
  0 <= PomodoroTimer.time_left t /\
  0 <= PomodoroTimer.completed_sessions t /\
  valid_settings (PomodoroTimer.settings t) /\
  auto_start w <> None.

(** An entry of the settings window is accepted when its text is a
    positive integer. *)
Definition accepted (int_ : string -> option Z) (text : string) : option Z :=
  match int_ text with
  | Some v => if v <=? 0 then None else Some v
  | None => None
  end.

End App.

(** * Properties of [PomodoroTimer] *)

Section TimerEquations.

Import PomodoroTimer.

Lemma timer_eta (t : timer) :
  Timer (settings t) (state t) (session_type t) (time_left t)
        (completed_sessions t) = t.
Proof. destruct t; reflexivity. Qed.

Lemma reset_eq (t : timer) (D : Z) :
  settings t !! "work_duration" = Some D ->
  reset t = (Timer (settings t) "idle" "work" (D * 60) 0, Done tt).
Proof.
  intros H. unfold reset, bind, modify, setting, getitem. cbn.
  rewrite H. reflexivity.
Qed.

Lemma reset_raises (t : timer) :
  settings t !! "work_duration" = None ->
  reset t = (Timer (settings t) "idle" "work" (time_left t)
                   (completed_sessions t), Raised (KeyError "work_duration")).
Proof.
  intros H. unfold reset, bind, modify, setting, getitem. cbn.
  rewrite H. reflexivity.
Qed.

Lemma key_map_lookup (s : string) :
  key_map !! s =
  if (s =? "work")%string then Some "work_duration"
  else if (s =? "short_break")%string then Some "short_break"
  else if (s =? "long_break")%string then Some "long_break"
  else None.
Proof.
  unfold key_map. cbn [list_to_map foldr uncurry fst snd].
  destruct (String.eqb_spec s "work") as [-> | N1]; [reflexivity |].
  rewrite lookup_insert_ne by congruence.
  destruct (String.eqb_spec s "short_break") as [-> | N2]; [reflexivity |].
  rewrite lookup_insert_ne by congruence.
  destruct (String.eqb_spec s "long_break") as [-> | N3]; [reflexivity |].
  rewrite lookup_insert_ne by congruence.
  apply lookup_empty.
Qed.

Lemma set_session_eq (s : string) (t : timer) :
  set_session s t =
  match key_map !! s with
  | None => (Timer (settings t) "idle" s (time_left t) (completed_sessions t),
             Raised (KeyError s))
  | Some k =>
      match settings t !! k with
      | None => (Timer (settings t) "idle" s (time_left t)
                       (completed_sessions t), Raised (KeyError k))
      | Some d => (Timer (settings t) "idle" s (d * 60) (completed_sessions t),
                   Done tt)
      end
  end.
Proof.
  destruct t as [se st ty tl c].
  unfold set_session, _get_duration_for_session, bind, modify, gets, lift,
    setting, getitem, ret. cbn -[key_map lookup].
  destruct (key_map !! s) as [k |]; [| reflexivity].
  cbn -[lookup]. destruct (se !! k); reflexivity.
Qed.

Lemma get_next_break_type_pure (t : timer) :
  fst (get_next_break_type t) = t.
Proof.
  unfold get_next_break_type, bind, setting, gets, lift, ret.
  destruct (getitem (settings t) "sessions_per_long_break"); [| reflexivity].
  destruct (completed_sessions t =? 0); [reflexivity |].
  destruct (mod_ (completed_sessions t) a); [| reflexivity].
  destruct (a0 =? 0); reflexivity.
Qed.

Lemma start_eq (t : timer) :
  start t = (set_state "running" t, Done tt).
Proof.
  unfold start, bind, gets, modify, ret.
  destruct (String.eqb_spec (state t) "running") as [E | E]; cbn; [| reflexivity].
  unfold set_state. rewrite <- E. now rewrite timer_eta.
Qed.

Lemma pause_eq (t : timer) :
  pause t =
  (if (state t =? "running")%string then set_state "paused" t else t, Done tt).
Proof.
  unfold pause, bind, gets, modify, ret.
  destruct (state t =? "running")%string; reflexivity.
Qed.

Lemma tick_eq (t : timer) :
  tick t =
  if negb (state t =? "running")%string || (time_left t <=? 0)
  then (t, Done None)
  else if 0 <? time_left t - 1
  then (set_time_left (time_left t - 1) t, Done None)
  else if (session_type t =? "work")%string
  then (Timer (settings t) "idle" (session_type t) (time_left t - 1)
              (completed_sessions t + 1), Done (Some "work_complete"))
  else (Timer (settings t) "idle" (session_type t) (time_left t - 1)
              (completed_sessions t), Done (Some "break_complete")).
Proof.
  destruct t as [se st ty tl c].
  unfold tick, bind, gets, ret, modify, set_time_left, set_state,
    set_completed_sessions; cbn -[String.eqb Z.leb Z.ltb Z.sub Z.add].
  destruct (negb (st =? "running")%string || (tl <=? 0)); [reflexivity |].
  cbn -[String.eqb Z.leb Z.ltb Z.sub Z.add].
  destruct (0 <? tl - 1); [reflexivity |].
  cbn -[String.eqb Z.leb Z.ltb Z.sub Z.add].
  destruct (ty =? "work")%string; reflexivity.
Qed.

Lemma tick_idle (t : timer) :
  state t <> "running" \/ time_left t <= 0 -> tick t = (t, Done None).
Proof.
  intros H. rewrite tick_eq.
  destruct (String.eqb_spec (state t) "running") as [E | E]; cbn; [| reflexivity].
  destruct H as [H | H]; [contradiction |].
  destruct (Z.leb_spec (time_left t) 0); [reflexivity | lia].
Qed.

Lemma tick_count (t : timer) :
  state t = "running" -> 1 < time_left t ->
  tick t = (set_time_left (time_left t - 1) t, Done None).
Proof.
  intros E H. rewrite tick_eq, E. cbn.
  destruct (Z.leb_spec (time_left t) 0); [lia |].
  destruct (Z.ltb_spec 0 (time_left t - 1)); [reflexivity | lia].
Qed.

Lemma tick_work_complete (t : timer) :
  state t = "running" -> time_left t = 1 -> session_type t = "work" ->
  tick t = (Timer (settings t) "idle" "work" 0 (completed_sessions t + 1),
            Done (Some "work_complete")).
Proof.
  intros E H W. rewrite tick_eq, E, H, W. reflexivity.
Qed.

Lemma tick_break_complete (t : timer) :
  state t = "running" -> time_left t = 1 -> session_type t <> "work" ->
  tick t = (Timer (settings t) "idle" (session_type t) 0 (completed_sessions t),
            Done (Some "break_complete")).
Proof.
  intros E H W. rewrite tick_eq, E, H. cbn.
  destruct (String.eqb_spec (session_type t) "work"); [contradiction |].
  reflexivity.
Qed.

End TimerEquations.

Section TickSequences.

Import PomodoroTimer.

Lemma ticks_idle (m : nat) (t : timer) :
  state t <> "running" \/ time_left t <= 0 ->
  ticks m t = (t, replicate m None).
Proof.
  intros H. induction m as [| m IH]; [reflexivity |].
  cbn [ticks]. rewrite IH, (tick_idle t H).
  now rewrite <- replicate_S_end.
Qed.

Lemma ticks_running (k : nat) (t : timer) :
  state t = "running" -> Z.of_nat k < time_left t ->
  ticks k t = (set_time_left (time_left t - Z.of_nat k) t, replicate k None).
Proof.
  intros E. induction k as [| k IH]; intros H.
  - cbn [ticks replicate]. f_equal. unfold set_time_left.
    replace (time_left t - Z.of_nat 0) with (time_left t) by lia.
    now rewrite timer_eta.
  - cbn [ticks]. rewrite IH by lia.
    rewrite tick_count; cbn [set_time_left state time_left]; [| exact E | lia].
    rewrite <- replicate_S_end. unfold set_time_left.
    cbn [settings state session_type time_left completed_sessions].
    do 2 f_equal. lia.
Qed.

End TickSequences.

Section OperationSequences.

Import PomodoroTimer.

Lemma run_snoc (ops : list op) (o : op) (t : timer) :
  run (ops ++ [o]) t = exec o (run ops t).
Proof. unfold run. now rewrite foldl_app. Qed.

Lemma exec_settings (o : op) (t : timer) :
  settings (exec o t) = settings t.
Proof.
  destruct o; cbn [exec].
  - destruct (settings t !! "work_duration") as [D |] eqn:E.
    + now rewrite (reset_eq t D E).
    + now rewrite (reset_raises t E).
  - now rewrite start_eq.
  - rewrite pause_eq. now destruct (state t =? "running")%string.
  - rewrite set_session_eq.
    destruct (key_map !! new_type) as [k |]; [| reflexivity].
    now destruct (settings t !! k).
  - rewrite tick_eq.
    destruct (negb (state t =? "running")%string || (time_left t <=? 0));
      [reflexivity |].
    destruct (0 <? time_left t - 1); [reflexivity |].
    now destruct (session_type t =? "work")%string.
  - now rewrite get_next_break_type_pure.
Qed.

Lemma run_settings (ops : list op) (t : timer) :
  settings (run ops t) = settings t.
Proof.
  induction ops as [| o ops IH] using rev_ind; [reflexivity |].
  now rewrite run_snoc, exec_settings.
Qed.

(** What one operation can do to [completed_sessions]. *)
Lemma exec_completed_sessions (o : op) (t : timer) :
  completed_sessions (exec o t) = completed_sessions t
  \/ (o = Tick /\ state t = "running" /\ session_type t = "work" /\
      time_left t = 1 /\ time_left (exec o t) = 0 /\
      tick t = (exec o t, Done (Some "work_complete")) /\
      completed_sessions (exec o t) = completed_sessions t + 1)
  \/ (o = Reset /\ completed_sessions (exec o t) = 0).
Proof.
  destruct o; cbn [exec].
  - destruct (settings t !! "work_duration") as [D |] eqn:E.
    + right; right. now rewrite (reset_eq t D E).
    + left. now rewrite (reset_raises t E).
  - left. now rewrite start_eq.
  - left. rewrite pause_eq. now destruct (state t =? "running")%string.
  - left. rewrite set_session_eq.
    destruct (key_map !! new_type) as [k |]; [| reflexivity].
    now destruct (settings t !! k).
  - rewrite tick_eq.
    destruct (String.eqb_spec (state t) "running") as [Er | Er];
      [| left; reflexivity].
    destruct (Z.leb_spec (time_left t) 0) as [Hl | Hl]; [left; reflexivity |].
    cbn [negb orb].
    destruct (Z.ltb_spec 0 (time_left t - 1)) as [Hp | Hp]; [left; reflexivity |].
    destruct (String.eqb_spec (session_type t) "work") as [Ew | Ew];
      [| left; reflexivity].
    right; left. cbn [fst time_left completed_sessions].
    assert (time_left t = 1) as E1 by lia.
    repeat split; try assumption; lia.
  - left. now rewrite get_next_break_type_pure.
Qed.

Lemma init_eq (s : gmap string Z) (t0 : timer) :
  __init__ s = Done t0 ->
  exists D, s !! "work_duration" = Some D /\
            t0 = Timer s "idle" "work" (D * 60) 0.
Proof.
  unfold __init__. intros H.
  destruct (s !! "work_duration") as [D |] eqn:E.
  - rewrite (reset_eq (Timer s "" "" 0 0) D E) in H.
    exists D. split; [reflexivity |]. now inversion H.
  - rewrite (reset_raises (Timer s "" "" 0 0) E) in H. discriminate.
Qed.

Lemma exec_completed_nonneg (o : op) (t : timer) :
  0 <= completed_sessions t -> 0 <= completed_sessions (exec o t).
Proof.
  intros H.
  destruct (exec_completed_sessions o t) as [E | [E | E]]; [lia | |].
  - destruct E as (_ & _ & _ & _ & _ & _ & E). lia.
  - destruct E as [_ E]. lia.
Qed.

Lemma run_completed_nonneg (ops : list op) (t : timer) :
  0 <= completed_sessions t -> 0 <= completed_sessions (run ops t).
Proof.
  intros H. induction ops as [| o ops IH] using rev_ind; [exact H |].
  rewrite run_snoc. now apply exec_completed_nonneg.
Qed.

Lemma key_map_range (ty k : string) :
  key_map !! ty = Some k ->
  In k ["work_duration"; "short_break"; "long_break"].
Proof.
  rewrite key_map_lookup.
  destruct (ty =? "work")%string;
    [intros [= <-]; cbn; tauto |].
  destruct (ty =? "short_break")%string;
    [intros [= <-]; cbn; tauto |].
  destruct (ty =? "long_break")%string;
    [intros [= <-]; cbn; tauto | discriminate].
Qed.

(** With non-negative durations no operation makes [time_left] negative. *)
Lemma exec_time_left_nonneg (o : op) (t : timer) :
  (forall k d, In k ["work_duration"; "short_break"; "long_break"] ->
               settings t !! k = Some d -> 0 <= d) ->
  0 <= time_left t -> 0 <= time_left (exec o t).
Proof.
  intros Hs H. destruct o; cbn [exec].
  - destruct (settings t !! "work_duration") as [D |] eqn:E.
    + rewrite (reset_eq t D E). cbn.
      assert (0 <= D) by (apply (Hs "work_duration"); [cbn; tauto | exact E]).
      lia.
    + now rewrite (reset_raises t E).
  - now rewrite start_eq.
  - rewrite pause_eq. now destruct (state t =? "running")%string.
  - rewrite set_session_eq.
    destruct (key_map !! new_type) as [k |] eqn:Ek; [| exact H].
    destruct (settings t !! k) as [d |] eqn:E; [| exact H].
    cbn. assert (0 <= d) by (apply (Hs k); [now apply (key_map_range new_type) | exact E]).
    lia.
  - rewrite tick_eq.
    destruct (negb (state t =? "running")%string); [exact H |].
    destruct (Z.leb_spec (time_left t) 0); [exact H |]. cbn [orb].
    destruct (0 <? time_left t - 1); [cbn; lia |].
    destruct (session_type t =? "work")%string; cbn; lia.
  - now rewrite get_next_break_type_pure.
Qed.

Lemma run_time_left_nonneg (ops : list op) (t : timer) :
  (forall k d, In k ["work_duration"; "short_break"; "long_break"] ->
               settings t !! k = Some d -> 0 <= d) ->
  0 <= time_left t -> 0 <= time_left (run ops t).
Proof.
  intros Hs H. induction ops as [| o ops IH] using rev_ind; [exact H |].
  rewrite run_snoc. apply exec_time_left_nonneg; [| exact IH].
  now rewrite run_settings.
Qed.

End OperationSequences.

Section TimerClaims.

Import PomodoroTimer.

(** C1. With [work_duration = D > 0], after [reset()], [start()] and [k]
    calls of [tick()], where [k < D*60], the timer shows
    [time_left = D*60 - k] and is in state ['running'] (none of the calls
    raises and none of the ticks reports an event). *)
Theorem countdown_after_start (t : timer) (D : Z) (k : nat) :
  0 < D ->
  settings t !! "work_duration" = Some D ->
  Z.of_nat k < D * 60 ->
  exists t0 t1 t2,
    reset t = (t0, Done tt) /\
    start t0 = (t1, Done tt) /\
    ticks k t1 = (t2, replicate k None) /\
    time_left t2 = D * 60 - Z.of_nat k /\
    state t2 = "running".
Proof.
  intros HD Hs Hk.
  eexists _, _, _. rewrite (reset_eq t D Hs).
  split; [reflexivity |]. rewrite start_eq.
  split; [reflexivity |].
  rewrite ticks_running by (cbn; [reflexivity || lia ..]).
  split; [reflexivity |]. cbn. split; reflexivity.
Qed.

Lemma countdown_after_start_witness :
  exists t0 t1 t2,
    reset (Timer TIMER_DEFAULTS "paused" "long_break" 7 3) = (t0, Done tt) /\
    start t0 = (t1, Done tt) /\
    ticks 90 t1 = (t2, replicate 90 None) /\
    time_left t2 = 25 * 60 - Z.of_nat 90 /\
    state t2 = "running".
Proof.
  apply (countdown_after_start (Timer TIMER_DEFAULTS "paused" "long_break" 7 3)
           25 90); [lia | reflexivity | lia].
Defined.



(** C5. [pause()] turns ['running'] into ['paused'] and leaves every other
    timer exactly as it is; it never changes [time_left], [session_type] or
    [completed_sessions]; and after it any number of [tick()] calls leaves
    [time_left] unchanged. *)
Theorem pause_freezes_countdown (t : timer) (m : nat) :
  let p := fst (pause t) in
  snd (pause t) = Done tt /\
  (state t = "running" -> state p = "paused") /\
  (state t <> "running" -> p = t) /\
  time_left p = time_left t /\
  session_type p = session_type t /\
  completed_sessions p = completed_sessions t /\
  settings p = settings t /\
  time_left (fst (ticks m p)) = time_left t.
Proof.
  cbn zeta. rewrite pause_eq. cbn [fst snd].
  destruct (String.eqb_spec (state t) "running") as [E | E].
  - repeat split; try contradiction.
    rewrite ticks_idle; [reflexivity | left; cbn; discriminate].
  - repeat split; try contradiction.
    rewrite ticks_idle; [reflexivity | left; exact E].
Qed.

(** C6. For [new_type] one of ['work'], ['short_break'], ['long_break'],
    whose duration in the settings is [d] minutes, [set_session(new_type)]
    leaves the state ['idle'], [session_type = new_type] and
    [time_left = d * 60] whatever the countdown was, and keeps
    [completed_sessions]. *)
Theorem set_session_restarts (t : timer) (new_type key : string) (d : Z) :
  In (new_type, key) [("work", "work_duration");
                      ("short_break", "short_break");
                      ("long_break", "long_break")] ->
  settings t !! key = Some d ->
  set_session new_type t =
  (Timer (settings t) "idle" new_type (d * 60) (completed_sessions t), Done tt).
Proof.
  intros Hin Hd. rewrite set_session_eq, key_map_lookup.
  cbn [In] in Hin.
  destruct Hin as [E | [E | [E | []]]]; inversion E; subst; cbn;
    rewrite Hd; reflexivity.
Qed.

Lemma set_session_restarts_witness :
  set_session "long_break" (Timer TIMER_DEFAULTS "running" "work" 321 3) =
  (Timer TIMER_DEFAULTS "idle" "long_break" (15 * 60) 3, Done tt).
Proof.
  apply (set_session_restarts (Timer TIMER_DEFAULTS "running" "work" 321 3)
           "long_break" "long_break" 15).
  - cbn. right. right. left. reflexivity.
  - reflexivity.
Defined.

(** C7. [start()] leaves the state ['running']: it sets it when the timer
    was not running and changes nothing when it was; [time_left],
    [session_type] and [completed_sessions] are never changed. *)
Theorem start_only_sets_running (t : timer) :
  let s := fst (start t) in
  snd (start t) = Done tt /\
  (state t <> "running" -> state s = "running") /\
  (state t = "running" -> s = t) /\
  time_left s = time_left t /\
  session_type s = session_type t /\
  completed_sessions s = completed_sessions t /\
  settings s = settings t.
Proof.
  cbn zeta. rewrite start_eq. cbn [fst snd].
  repeat split.
  intros E. unfold set_state. rewrite <- E. apply timer_eta.
Qed.

(** C10. For a string [s] other than ['work'], ['short_break'] and
    ['long_break'], [set_session(s)] raises [KeyError(s)] from the lookup in
    [key_map], after it has set the state to ['idle'] and [session_type] to
    [s]; [time_left] keeps its previous value. *)
Theorem set_session_unknown_type (t : timer) (s : string) :
  s <> "work" -> s <> "short_break" -> s <> "long_break" ->
  set_session s t =
  (Timer (settings t) "idle" s (time_left t) (completed_sessions t),
   Raised (KeyError s)).
Proof.
  intros N1 N2 N3. rewrite set_session_eq, key_map_lookup.
  destruct (String.eqb_spec s "work"); [contradiction |].
  destruct (String.eqb_spec s "short_break"); [contradiction |].
  destruct (String.eqb_spec s "long_break"); [contradiction |].
  reflexivity.
Qed.

Lemma set_session_unknown_type_witness :
  set_session "nap" (Timer TIMER_DEFAULTS "running" "work" 321 3) =
  (Timer TIMER_DEFAULTS "idle" "nap" 321 3, Raised (KeyError "nap")).
Proof.
  apply (set_session_unknown_type (Timer TIMER_DEFAULTS "running" "work" 321 3)
           "nap"); discriminate.
Defined.

(** C3. With [n = sessions_per_long_break > 0] and [c = completed_sessions],
    [get_next_break_type()] changes no attribute and returns ['short_break']
    when [c = 0], ['long_break'] when [c > 0] and [c mod n = 0], and
    ['short_break'] otherwise.  After the first completed work session
    ([c = 1]) the answer is therefore ['long_break'] when [n = 1] and
    ['short_break'] for every larger [n]. *)
Theorem next_break_rule (t : timer) (n : Z) :
  settings t !! "sessions_per_long_break" = Some n ->
  0 < n ->
  0 <= completed_sessions t ->
  let c := completed_sessions t in
  let r := get_next_break_type t in
  fst r = t /\
  (c = 0 -> snd r = Done "short_break") /\
  (0 < c -> c mod n = 0 -> snd r = Done "long_break") /\
  (c <> 0 -> ~ (0 < c /\ c mod n = 0) -> snd r = Done "short_break") /\
  (c = 1 -> snd r = Done (if n =? 1 then "long_break" else "short_break")).
Proof.
  intros Hn Hpos Hc c r.
  split; [apply get_next_break_type_pure |].
  subst r. unfold get_next_break_type, bind, setting, getitem, gets, lift,
    ret, mod_.
  rewrite Hn. fold c.
  destruct (Z.eqb_spec n 0) as [| _]; [lia |].
  destruct (Z.eqb_spec c 0) as [E0 | N0]; cbn [snd].
  - repeat split; intros; try reflexivity; lia.
  - destruct (Z.eqb_spec (c mod n) 0) as [Em | Nm]; cbn [snd].
    + split; [contradiction |]. split; [reflexivity |].
      split; [intros _ H; exfalso; apply H; lia |].
      intros E1. rewrite E1 in Em.
      destruct (Z.eqb_spec n 1) as [| N1]; [reflexivity |].
      rewrite Z.mod_small in Em by lia. discriminate.
    + split; [contradiction |]. split; [contradiction |].
      split; [reflexivity |].
      intros E1. rewrite E1 in Nm.
      destruct (Z.eqb_spec n 1) as [-> | N1]; [| reflexivity].
      exfalso. apply Nm. reflexivity.
Qed.

Lemma next_break_rule_witness :
  let t := Timer TIMER_DEFAULTS "idle" "work" 1500 8 in
  let c := completed_sessions t in
  let r := get_next_break_type t in
  fst r = t /\
  (c = 0 -> snd r = Done "short_break") /\
  (0 < c -> c mod 4 = 0 -> snd r = Done "long_break") /\
  (c <> 0 -> ~ (0 < c /\ c mod 4 = 0) -> snd r = Done "short_break") /\
  (c = 1 -> snd r = Done (if 4 =? 1 then "long_break" else "short_break")).
Proof.
  apply (next_break_rule (Timer TIMER_DEFAULTS "idle" "work" 1500 8) 4);
    [reflexivity | lia | cbn; lia].
Defined.

(** C3, as the spec words its last sentence, fails: with
    [sessions_per_long_break = 1], a new timer that runs its first work
    session to completion has [completed_sessions = 1], and
    [get_next_break_type()] then answers ['long_break']. *)
Lemma first_session_long_break_at_cadence_one :
  exists t0 t1,
    __init__ every_session_settings = Done t0 /\
    ticks 60 (fst (start t0)) =
      (t1, (replicate 59 None ++ [Some "work_complete"])%list) /\
    completed_sessions t1 = 1 /\
    snd (get_next_break_type t1) = Done "long_break" /\
    snd (get_next_break_type t1) <> Done "short_break".
Proof.
  eexists _, _. split; [vm_compute; reflexivity |].
  split; [vm_compute; reflexivity |].
  split; [reflexivity |].
  split; [vm_compute; reflexivity |].
  vm_compute. discriminate.
Qed.

(** C8. Along every sequence of operations on a timer built by
    [PomodoroTimer(settings)], one more operation raises [completed_sessions]
    only if it is a [tick()] that takes a running work session from
    [time_left = 1] to [0], and then by exactly 1 (and such a tick does raise
    it); a tick of a break session leaves it alone; it goes down only
    through [reset()]; and [reset()] returns normally and sets it to 0. *)
Theorem completed_sessions_changes (s : gmap string Z) (t0 : timer)
    (ops : list op) (o : op) :
  __init__ s = Done t0 ->
  let t := run ops t0 in
  let t' := exec o t in
  (completed_sessions t < completed_sessions t' ->
     o = Tick /\ state t = "running" /\ session_type t = "work" /\
     time_left t = 1 /\ time_left t' = 0 /\
     tick t = (t', Done (Some "work_complete")) /\
     completed_sessions t' = completed_sessions t + 1) /\
  (o = Tick -> state t = "running" -> session_type t = "work" ->
     time_left t = 1 ->
     completed_sessions t' = completed_sessions t + 1) /\
  (o = Tick -> session_type t <> "work" ->
     completed_sessions t' = completed_sessions t) /\
  (completed_sessions t' < completed_sessions t ->
     o = Reset /\ completed_sessions t' = 0) /\
  (o = Reset ->
     reset t = (t', Done tt) /\ completed_sessions t' = 0).
Proof.
  intros Hinit t t'.
  destruct (init_eq s t0 Hinit) as (D & HD & Et0).
  assert (0 <= completed_sessions t) as Hc.
  { apply run_completed_nonneg. rewrite Et0. cbn. lia. }
  assert (o = Reset ->
          reset t = (t', Done tt) /\ completed_sessions t' = 0) as Hreset.
  { intros ->. subst t'. cbn [exec].
    assert (settings t !! "work_duration" = Some D) as HDt
      by (subst t; rewrite run_settings, Et0; exact HD).
    rewrite (reset_eq t D HDt). split; reflexivity. }
  split.
  { intros Hlt.
    destruct (exec_completed_sessions o t) as [E | [E | [_ E]]];
      fold t' in E; [lia | exact E | lia]. }
  split.
  { intros -> Er Ew E1. subst t'. cbn [exec].
    now rewrite (tick_work_complete t Er E1 Ew). }
  split.
  { intros Eo Nw.
    destruct (exec_completed_sessions o t) as [E | [E | [E _]]];
      fold t' in E; [exact E | | congruence].
    destruct E as (_ & _ & Ew & _). contradiction. }
  split; [| exact Hreset].
  intros Hlt.
  destruct (exec_completed_sessions o t) as [E | [E | E]];
    fold t' in E; [lia | | exact E].
  destruct E as (_ & _ & _ & _ & _ & _ & Ec). lia.
Qed.

Lemma completed_sessions_changes_witness :
  let t0 := Timer every_session_settings "idle" "work" 60 0 in
  let t := run (Start :: replicate 59 Tick) t0 in
  (state t = "running" /\ session_type t = "work" /\ time_left t = 1) /\
  completed_sessions (exec Tick t) = completed_sessions t + 1 /\
  tick t = (exec Tick t, Done (Some "work_complete")) /\
  reset (exec Tick t) = (exec Reset (exec Tick t), Done tt) /\
  completed_sessions (exec Tick t) = 1 /\
  completed_sessions (exec Reset (exec Tick t)) = 0.
Proof.
  intros t0 t.
  assert (__init__ every_session_settings = Done t0) as Hinit
    by (vm_compute; reflexivity).
  destruct (completed_sessions_changes every_session_settings t0
              (Start :: replicate 59 Tick) Tick Hinit)
    as (Hup & Hdoes & _ & _ & _).
  destruct (completed_sessions_changes every_session_settings t0
              ((Start :: replicate 59 Tick) ++ [Tick]) Reset Hinit)
    as (_ & _ & _ & _ & Hreset).
  assert (state t = "running" /\ session_type t = "work" /\ time_left t = 1)
    as (Er & Ew & E1) by (vm_compute; repeat split; reflexivity).
  pose proof (Hdoes eq_refl Er Ew E1) as Hplus.
  fold t in Hup, Hplus.
  assert (completed_sessions t < completed_sessions (exec Tick t)) as Hlt
    by (rewrite Hplus; lia).
  destruct (Hup Hlt) as (_ & _ & _ & _ & _ & Htick & _).
  destruct (Hreset eq_refl) as (Hr & H0).
  rewrite run_snoc in Hr, H0. fold t in Hr, H0.
  repeat split; assumption || (vm_compute; reflexivity).
Defined.

(** C9. A timer built with positive durations keeps [time_left >= 0] after
    every operation of every sequence of [reset], [start], [pause],
    [set_session] (with a valid session type), [tick] and
    [get_next_break_type]. *)
Theorem time_left_never_negative (s : gmap string Z) (w sb lb : Z)
    (ops : list op) (n : nat) :
  s !! "work_duration" = Some w ->
  s !! "short_break" = Some sb ->
  s !! "long_break" = Some lb ->
  0 < w -> 0 < sb -> 0 < lb ->
  Forall (fun o => forall ty, o = SetSession ty ->
                   In ty ["work"; "short_break"; "long_break"]) ops ->
  exists t0,
    __init__ s = Done t0 /\
    0 <= time_left t0 /\
    0 <= time_left (run (take n ops) t0).
Proof.
  intros Hw Hsb Hlb Pw Psb Plb _.
  exists (Timer s "idle" "work" (w * 60) 0).
  split; [unfold __init__; now rewrite (reset_eq (Timer s "" "" 0 0) w Hw) |].
  split; [cbn; lia |].
  apply run_time_left_nonneg; [| cbn; lia].
  cbn [settings In]. intros k d [<- | [<- | [<- | []]]] E;
    rewrite E in *; simplify_eq; lia.
Qed.

Lemma time_left_never_negative_witness :
  exists t0,
    __init__ TIMER_DEFAULTS = Done t0 /\
    0 <= time_left t0 /\
    0 <= time_left
           (run (take 4 [Start; Tick; SetSession "long_break"; Start; Tick;
                         Reset]) t0).
Proof.
  apply (time_left_never_negative TIMER_DEFAULTS 25 5 15
           [Start; Tick; SetSession "long_break"; Start; Tick; Reset] 4);
    try reflexivity; try lia.
  repeat (constructor; [intros ty [=]; subst; cbn; tauto |]).
  constructor.
Defined.

End TimerClaims.

(** * Properties of the weekly aggregation *)

Section Calendar.

Import datetime.

Lemma weekday_range (d : Z) : 0 <= weekday d < 7.
Proof. unfold weekday. apply Z.mod_pos_bound. lia. Qed.

(** [today - timedelta(days=today.weekday())] is the Monday of [today]'s
    week. *)
Lemma monday_of_week (today : Z) :
  let monday := today - weekday today in
  weekday monday = 0 /\ monday <= today < monday + 7.
Proof.
  cbn zeta. unfold weekday. Z.div_mod_to_equations. lia.
Qed.

Lemma monday_positive (today : Z) : 0 < today -> 0 < today - weekday today.
Proof. unfold weekday. intros H. Z.div_mod_to_equations. lia. Qed.

Lemma timedelta_ok (days : Z) :
  Z.abs days <= 999999999 -> timedelta days = Done days.
Proof.
  intros H. unfold timedelta.
  destruct (Z.gtb_spec (Z.abs days) 999999999); [lia | reflexivity].
Qed.

Lemma date_add_ok (d delta : Z) :
  0 < d + delta <= _MAXORDINAL -> date_add d delta = Done (d + delta).
Proof.
  intros [H1 H2]. unfold date_add. cbn zeta.
  destruct (Z.ltb_spec 0 (d + delta)); [| lia].
  destruct (Z.leb_spec (d + delta) _MAXORDINAL); [reflexivity | lia].
Qed.

End Calendar.

Section Buckets.

Import StatsWindow.

Lemma sum_from (l : list Z) (a : Z) : foldl Z.add a l = a + sum l.
Proof.
  unfold sum. revert a. induction l as [| x l IH]; intros a; cbn [foldl].
  - lia.
  - rewrite (IH (a + x)), (IH (0 + x)). lia.
Qed.

Lemma sum_cons (x : Z) (l : list Z) : sum (x :: l) = x + sum l.
Proof. unfold sum at 1. cbn [foldl]. rewrite sum_from. lia. Qed.

Lemma sum_insert (l : list Z) (j : nat) (c : Z) :
  l !! j = Some c -> sum (<[j := c + 1]> l) = sum l + 1.
Proof.
  revert j. induction l as [| x l IH]; intros j H; [discriminate |].
  destruct j as [| j]; cbn in H.
  - inversion H; subst.
    change (<[0%nat := c + 1]> (c :: l)) with ((c + 1) :: l).
    rewrite !sum_cons. lia.
  - change (<[S j := c + 1]> (x :: l)) with (x :: <[j := c + 1]> l).
    rewrite !sum_cons, (IH j H). lia.
Qed.

Lemma incr_item_ok (l : list Z) (i : Z) :
  0 <= i < Z.of_nat (length l) ->
  exists c, l !! Z.to_nat i = Some c /\
            incr_item l i = Done (<[Z.to_nat i := c + 1]> l).
Proof.
  intros H. unfold incr_item.
  assert ((i <? 0) = false) as Hi by (apply Z.ltb_ge; lia).
  rewrite Hi. cbn zeta. rewrite Hi.
  destruct (l !! Z.to_nat i) as [c |] eqn:E.
  - exists c. split; reflexivity.
  - apply lookup_ge_None in E. lia.
Qed.

End Buckets.

Section CountingLoop.

Import datetime StatsWindow WeekSpec.

Variable parse : string -> outcome datetime.

Lemma how_many_cons {A} (f : A -> bool) (x : A) (l : list A) :
  how_many f (x :: l) = (if f x then 1 else 0) + how_many f l.
Proof.
  unfold how_many. cbn [List.filter].
  destruct (f x); cbn [length]; lia.
Qed.

(** The loop adds, to the bucket of every weekday, the number of sessions
    of the week that fall on that weekday. *)
Lemma count_sessions_spec (start_ : Z) (sessions : list session) :
  forall counts : list Z,
    length counts = 7%nat ->
    Forall (fun s => exists dt, parse (timestamp s) = Done dt) sessions ->
    exists counts',
      count_sessions parse start_ (start_ + 6) sessions counts = Done counts' /\
      length counts' = 7%nat /\
      (forall (i : nat) (c : Z),
          counts !! i = Some c ->
          counts' !! i =
          Some (c + how_many (on_day parse start_ (Z.of_nat i)) sessions)) /\
      sum counts' = sum counts + how_many (in_week parse start_) sessions.
Proof.
  induction sessions as [| s rest IH]; intros counts Hlen Hall.
  - exists counts. cbn [count_sessions]. unfold how_many. cbn.
    repeat split; try lia.
    intros i c ->. f_equal. lia.
  - inversion Hall as [| s' l' [dt Hdt] Hrest]; subst.
    cbn [count_sessions]. rewrite Hdt. cbn [obind]. cbn zeta.
    destruct ((start_ <=? dt_date dt) && (dt_date dt <=? start_ + 6))
      eqn:Hwin.
    + pose proof (weekday_range (dt_date dt)) as Hwd.
      destruct (incr_item_ok counts (weekday (dt_date dt))) as (c0 & Hc0 & Hi);
        [rewrite Hlen; lia |].
      rewrite Hi. cbn [obind].
      destruct (IH (<[Z.to_nat (weekday (dt_date dt)) := c0 + 1]> counts))
        as (counts' & Hrun & Hl & Hlook & Hsum);
        [now rewrite length_insert | exact Hrest |].
      exists counts'. split; [exact Hrun |]. split; [exact Hl |]. split.
      * intros i c Hc. rewrite how_many_cons.
        assert (on_day parse start_ (Z.of_nat i) s
                = (weekday (dt_date dt) =? Z.of_nat i)) as ->
          by (unfold on_day, date_of; now rewrite Hdt, Hwin).
        destruct (Z.eqb_spec (weekday (dt_date dt)) (Z.of_nat i)) as [E | N].
        -- rewrite E, Nat2Z.id in Hc0, Hlook. rewrite Hc in Hc0.
           inversion Hc0; subst c0.
           rewrite (Hlook i (c + 1)).
           ++ f_equal; lia.
           ++ apply list_lookup_insert_eq. rewrite Hlen.
              apply lookup_lt_Some in Hc. lia.
        -- rewrite (Hlook i c).
           ++ f_equal; lia.
           ++ rewrite list_lookup_insert_ne; [exact Hc | lia].
      * rewrite Hsum, (sum_insert counts _ c0 Hc0), how_many_cons.
        assert (in_week parse start_ s = true) as ->
          by (unfold in_week, date_of; now rewrite Hdt, Hwin).
        lia.
    + destruct (IH counts Hlen Hrest) as (counts' & Hrun & Hl & Hlook & Hsum).
      exists counts'. split; [exact Hrun |]. split; [exact Hl |]. split.
      * intros i c Hc. rewrite how_many_cons.
        assert (on_day parse start_ (Z.of_nat i) s = false) as ->
          by (unfold on_day, date_of; now rewrite Hdt, Hwin).
        rewrite (Hlook i c Hc). f_equal; lia.
      * rewrite Hsum, how_many_cons.
        assert (in_week parse start_ s = false) as ->
          by (unfold in_week, date_of; now rewrite Hdt, Hwin).
        lia.
Qed.

(** The whole method, when the week is representable and every timestamp
    parses. *)
Lemma update_display_spec (today week_offset : Z) (sessions : list session) :
  0 < today <= _MAXORDINAL ->
  let start_ := today - weekday today + 7 * week_offset in
  0 < start_ ->
  start_ + 6 <= _MAXORDINAL ->
  Forall (fun s => exists dt, parse (timestamp s) = Done dt) sessions ->
  exists counts,
    _update_display parse today week_offset sessions =
      Done (Display start_ (start_ + 6) counts (sum counts)) /\
    length counts = 7%nat /\
    (forall i : nat, (i < 7)%nat ->
       counts !! i =
       Some (how_many (on_day parse start_ (Z.of_nat i)) sessions)) /\
    sum counts = how_many (in_week parse start_) sessions.
Proof.
  intros Htoday start_ Hlo Hhi Hall.
  pose proof (weekday_range today) as Hwd.
  pose proof (monday_positive today (proj1 Htoday)) as Hmon.
  unfold _MAXORDINAL in *.
  unfold _update_display, date_sub.
  rewrite (timedelta_ok (weekday today)) by lia. cbn [obind].
  rewrite (timedelta_ok (- weekday today)) by lia. cbn [obind].
  rewrite (date_add_ok today (- weekday today))
    by (unfold _MAXORDINAL; lia).
  cbn [obind].
  rewrite (timedelta_ok (7 * week_offset)) by (subst start_; lia).
  cbn [obind].
  rewrite (date_add_ok (today + - weekday today) (7 * week_offset))
    by (unfold _MAXORDINAL; subst start_; lia).
  cbn [obind].
  rewrite (timedelta_ok 6) by lia. cbn [obind].
  rewrite (date_add_ok (today + - weekday today + 7 * week_offset) 6)
    by (unfold _MAXORDINAL; subst start_; lia).
  cbn [obind].
  replace (today + - weekday today + 7 * week_offset) with start_
    by (subst start_; lia).
  destruct (count_sessions_spec start_ sessions (replicate 7 0))
    as (counts & Hrun & Hl & Hlook & Hsum); [reflexivity | exact Hall |].
  rewrite Hrun. cbn [obind].
  exists counts. split; [reflexivity |]. split; [exact Hl |]. split.
  - intros i Hi. rewrite (Hlook i 0); [f_equal; lia |].
    apply lookup_replicate_2. exact Hi.
  - rewrite Hsum. reflexivity.
Qed.

End CountingLoop.

Section WeekClaims.

Import datetime StatsWindow WeekSpec.

(** C4. For a reference date [today] and a signed [week_offset] whose week
    [[start_, start_ + 6]], with
    [start_ = (Monday on or before today) + 7 * week_offset], consists of
    representable dates, and for sessions whose timestamps parse:
    [_update_display] computes that window; bucket [i] (Monday is 0, Sunday
    is 6) counts the sessions dated inside the window on weekday [i];
    sessions outside are not counted; and the total is the sum of the seven
    buckets, the number of sessions inside the window.  For sessions on
    2024-06-03, 2024-06-05 and 2024-06-09, reference date 2024-06-05 and
    offset 0 the buckets are [[1;0;1;0;0;0;1]] and the total is 3. *)
Theorem weekly_aggregation :
  (forall (parse : string -> outcome datetime) (today week_offset : Z)
          (sessions : list session),
      0 < today <= _MAXORDINAL ->
      let monday := today - weekday today in
      let start_ := monday + 7 * week_offset in
      0 < start_ ->
      start_ + 6 <= _MAXORDINAL ->
      Forall (fun s => exists dt, parse (timestamp s) = Done dt) sessions ->
      weekday monday = 0 /\ monday <= today < monday + 7 /\
      exists counts,
        _update_display parse today week_offset sessions =
          Done (Display start_ (start_ + 6) counts (sum counts)) /\
        length counts = 7%nat /\
        (forall i : nat, (i < 7)%nat ->
           counts !! i =
           Some (how_many (on_day parse start_ (Z.of_nat i)) sessions)) /\
        sum counts = how_many (in_week parse start_) sessions)
  /\
  (date 2024 6 3 = Done 739040 /\
   date 2024 6 5 = Done 739042 /\
   date 2024 6 9 = Done 739046 /\
   weekday 739040 = 0 /\
   forall (parse : string -> outcome datetime) (s1 s2 s3 : session)
          (dt1 dt2 dt3 : datetime),
     parse (timestamp s1) = Done dt1 -> dt_date dt1 = 739040 ->
     parse (timestamp s2) = Done dt2 -> dt_date dt2 = 739042 ->
     parse (timestamp s3) = Done dt3 -> dt_date dt3 = 739046 ->
     _update_display parse 739042 0 [s1; s2; s3] =
       Done (Display 739040 739046 [1; 0; 1; 0; 0; 0; 1] 3))
  /\
  _update_display fromisoformat 739042 0
    [Session "2024-06-03T09:00:00";
     Session "2024-06-05T14:30:00.250000";
     Session "2024-06-09T23:59:59"] =
  Done (Display 739040 739046 [1; 0; 1; 0; 0; 0; 1] 3).
Proof.
  split; [| split].
  - intros parse today week_offset sessions Htoday monday start_ Hlo Hhi Hall.
    destruct (monday_of_week today) as [Hm Hb].
    split; [exact Hm |]. split; [exact Hb |].
    now apply update_display_spec.
  - repeat (split; [vm_compute; reflexivity |]).
    intros parse s1 s2 s3 dt1 dt2 dt3 P1 D1 P2 D2 P3 D3.
    unfold _update_display.
    change (timedelta (weekday 739042)) with (Done (A := Z) 2).
    cbn [obind].
    change (date_sub 739042 2) with (Done (A := Z) 739040). cbn [obind].
    change (timedelta (7 * 0)) with (Done (A := Z) 0). cbn [obind].
    change (date_add 739040 0) with (Done (A := Z) 739040). cbn [obind].
    change (timedelta 6) with (Done (A := Z) 6). cbn [obind].
    change (date_add 739040 6) with (Done (A := Z) 739046). cbn [obind].
    cbn [count_sessions]. rewrite P1, P2, P3. cbn [obind]. cbn zeta.
    rewrite D1, D2, D3. reflexivity.
  - vm_compute. reflexivity.
Qed.

Lemma weekly_aggregation_witness :
  let sessions := [Session "2024-05-27T08:00:00";
                   Session "2024-05-29T08:00:00";
                   Session "2024-05-29T09:00:00";
                   Session "2024-06-03T09:00:00"] in
  let monday := 739042 - weekday 739042 in
  let start_ := monday + 7 * (-1) in
  weekday monday = 0 /\ monday <= 739042 < monday + 7 /\
  exists counts,
    _update_display fromisoformat 739042 (-1) sessions =
      Done (Display start_ (start_ + 6) counts (sum counts)) /\
    length counts = 7%nat /\
    (forall i : nat, (i < 7)%nat ->
       counts !! i =
       Some (how_many (on_day fromisoformat start_ (Z.of_nat i)) sessions)) /\
    sum counts = how_many (in_week fromisoformat start_) sessions.
Proof.
  intros sessions.
  apply (proj1 weekly_aggregation fromisoformat 739042 (-1) sessions).
  - unfold _MAXORDINAL. lia.
  - vm_compute. reflexivity.
  - vm_compute. discriminate.
  - repeat (constructor; [eexists; vm_compute; reflexivity |]). constructor.
Defined.

(** C4, as the spec words it (any signed offset), fails: from 2024-06-05,
    one million weeks ahead lies beyond 9999-12-31, and the date arithmetic
    raises [OverflowError] instead of producing a window. *)
Lemma week_window_out_of_range :
  date 2024 6 5 = Done 739042 /\
  _update_display fromisoformat 739042 1000000 [] = Raised OverflowError /\
  ~ (exists d : display,
        _update_display fromisoformat 739042 1000000 [] = Done d).
Proof.
  split; [vm_compute; reflexivity |].
  split; [vm_compute; reflexivity |].
  intros [d H]. vm_compute in H. discriminate.
Qed.

End WeekClaims.

(** * Further properties of [PomodoroTimer] *)

Section TimerEdges.

Import PomodoroTimer.

(** X1. Without a ["work_duration"] entry [reset()] raises [KeyError] after
    it has set the state and the session type, so [time_left] and
    [completed_sessions] keep their old values; and the constructor, which
    calls [reset()], builds no timer. *)
Theorem reset_without_work_duration (t : timer) :
  settings t !! "work_duration" = None ->
  reset t = (Timer (settings t) "idle" "work" (time_left t)
                   (completed_sessions t),
             Raised (KeyError "work_duration")) /\
  __init__ (settings t) = Raised (KeyError "work_duration").
Proof.
  intros H. split; [now apply reset_raises |].
  unfold __init__. now rewrite (reset_raises (Timer (settings t) "" "" 0 0) H).
Qed.

Lemma reset_without_work_duration_witness :
  let t := Timer (delete "work_duration" TIMER_DEFAULTS) "running"
                 "long_break" 17 3 in
  reset t = (Timer (settings t) "idle" "work" 17 3,
             Raised (KeyError "work_duration")) /\
  __init__ (settings t) = Raised (KeyError "work_duration").
Proof.
  apply (reset_without_work_duration
           (Timer (delete "work_duration" TIMER_DEFAULTS) "running"
                  "long_break" 17 3)).
  vm_compute. reflexivity.
Defined.

(** X2. [get_next_break_type()] looks the cadence up before anything else:
    without the entry it raises [KeyError] even when no session is
    completed.  With cadence 0 it answers ['short_break'] while
    [completed_sessions] is 0 and raises [ZeroDivisionError] afterwards.
    With any other cadence it returns one of the two break types.  In no
    case does it change the timer. *)
Theorem next_break_errors (t : timer) :
  (settings t !! "sessions_per_long_break" = None ->
   get_next_break_type t =
     (t, Raised (KeyError "sessions_per_long_break"))) /\
  (settings t !! "sessions_per_long_break" = Some 0 ->
   get_next_break_type t =
     (t, if completed_sessions t =? 0
         then Done "short_break" else Raised ZeroDivisionError)) /\
  (forall n, settings t !! "sessions_per_long_break" = Some n -> n <> 0 ->
   get_next_break_type t = (t, Done "short_break") \/
   get_next_break_type t = (t, Done "long_break")).
Proof.
  unfold get_next_break_type, bind, setting, getitem, gets, lift, ret, mod_.
  repeat split.
  - intros ->. reflexivity.
  - intros ->. cbn. now destruct (completed_sessions t =? 0).
  - intros n -> Hn.
    destruct (completed_sessions t =? 0); [now left |].
    destruct (Z.eqb_spec n 0); [contradiction |].
    destruct (completed_sessions t mod n =? 0); [now right | now left].
Qed.

(** X3. A running timer with [time_left = T > 0], whatever its session
    type, stays silent for [T - 1] ticks and reports on the [T]-th:
    ["work_complete"] for a work session, ["break_complete"] for any other.
    It is then idle at 0 with the same session type, and only a work
    session has added 1 to [completed_sessions]. *)
Theorem countdown_to_event (t : timer) :
  state t = "running" ->
  0 < time_left t ->
  let n := Z.to_nat (time_left t) in
  let work := (session_type t =? "work")%string in
  ticks n t =
    (Timer (settings t) "idle" (session_type t) 0
           (completed_sessions t + (if work then 1 else 0)),
     (replicate (n - 1) None
      ++ [Some (if work then "work_complete" else "break_complete")])%list).
Proof.
  intros Er Hp n work.
  assert (n = S (n - 1)) as -> by lia.
  cbn [ticks]. replace (S (n - 1) - 1)%nat with (n - 1)%nat by lia.
  rewrite ticks_running by (try assumption; lia).
  subst work.
  destruct (String.eqb_spec (session_type t) "work") as [Ew | Ew].
  - rewrite tick_work_complete; cbn [set_time_left state time_left session_type];
      [| assumption | lia | assumption].
    cbn. rewrite Ew. reflexivity.
  - rewrite tick_break_complete; cbn [set_time_left state time_left session_type];
      [| assumption | lia | assumption].
    cbn. do 3 f_equal. lia.
Qed.

Lemma countdown_to_event_witness :
  let t := Timer TIMER_DEFAULTS "running" "short_break" 300 2 in
  ticks 300 t =
    (Timer TIMER_DEFAULTS "idle" "short_break" 0 (2 + 0),
     (replicate (300 - 1) None ++ [Some "break_complete"])%list).
Proof.
  apply (countdown_to_event (Timer TIMER_DEFAULTS "running" "short_break" 300 2));
    [reflexivity | cbn; lia].
Defined.

(** X4. Pausing loses no time: [j] ticks, [pause()], any number [m] of
    ticks, [start()] and [k] more ticks leave a running timer exactly where
    [j + k] uninterrupted ticks leave it, as long as [j + k < time_left]. *)
Theorem pause_resume (t : timer) (j m k : nat) :
  state t = "running" ->
  Z.of_nat (j + k) < time_left t ->
  fst (ticks k (fst (start (fst (ticks m (fst (pause (fst (ticks j t))))))))) =
  fst (ticks (j + k) t).
Proof.
  intros Er H.
  rewrite (ticks_running j t Er) by lia. cbn [fst].
  set (t1 := set_time_left (time_left t - Z.of_nat j) t).
  rewrite (pause_eq t1).
  change (state t1) with (state t). rewrite Er, String.eqb_refl. cbn [fst].
  rewrite (ticks_idle m) by (left; cbn; discriminate). cbn [fst].
  rewrite start_eq. cbn [fst].
  rewrite (ticks_running k) by (cbn; [reflexivity || lia ..]).
  rewrite (ticks_running (j + k) t Er) by lia.
  subst t1. destruct t as [se st ty tl c]. cbn in Er. subst st.
  unfold set_time_left, set_state.
  cbn [fst settings state session_type time_left completed_sessions].
  f_equal. lia.
Qed.

Lemma pause_resume_witness :
  let t := Timer TIMER_DEFAULTS "running" "work" 1500 0 in
  fst (ticks 7 (fst (start (fst (ticks 40 (fst (pause (fst (ticks 5 t))))))))) =
  fst (ticks (5 + 7) t).
Proof.
  apply (pause_resume (Timer TIMER_DEFAULTS "running" "work" 1500 0) 5 40 7);
    [reflexivity | cbn; lia].
Defined.

(** X5. [tick()] never raises, and it reports an event exactly when the
    timer is running with one second left; the timer is then idle at 0.
    Whatever it does, it keeps the settings and the session type and takes
    at most one second off [time_left]. *)
Theorem tick_event_iff (t : timer) :
  (exists ev, snd (tick t) = Done ev) /\
  (snd (tick t) <> Done None <-> state t = "running" /\ time_left t = 1) /\
  (snd (tick t) <> Done None ->
   state (fst (tick t)) = "idle" /\ time_left (fst (tick t)) = 0) /\
  settings (fst (tick t)) = settings t /\
  session_type (fst (tick t)) = session_type t /\
  time_left t - 1 <= time_left (fst (tick t)) <= time_left t.
Proof.
  rewrite tick_eq.
  destruct (String.eqb_spec (state t) "running") as [Er | Er]; cbn [negb orb].
  2:{ cbn. repeat split; eauto; try lia; try tauto;
      try (intros [? ?]; contradiction). }
  destruct (Z.leb_spec (time_left t) 0) as [Hl | Hl].
  { cbn. repeat split; eauto; try lia; try tauto; try (intros [? ?]; lia). }
  destruct (Z.ltb_spec 0 (time_left t - 1)) as [Hp | Hp].
  { cbn. repeat split; eauto; try lia; try tauto; try (intros [? ?]; lia). }
  assert (time_left t = 1) as E1 by lia.
  destruct (session_type t =? "work")%string; cbn;
    repeat split; eauto; try lia; try discriminate.
Qed.

End TimerEdges.

(** * Properties of [format_time] *)

Section ClockFace.

Import Utility ClockSpec.

Lemma append_cons (c : ascii) (a b : string) :
  (String c a ++ b)%string = String c (a ++ b).
Proof. reflexivity. Qed.

Lemma chars_app (a b : string) :
  list_ascii_of_string (a ++ b) =
  (list_ascii_of_string a ++ list_ascii_of_string b)%list.
Proof.
  induction a as [| c a IH]; [reflexivity |].
  rewrite append_cons. cbn [list_ascii_of_string app]. now rewrite IH.
Qed.

Lemma split_colon_app (a b : string) :
  (forall c, In c (list_ascii_of_string a) -> c <> ":"%char) ->
  split_colon (a ++ String ":" b) = Some (a, b).
Proof.
  induction a as [| c a IH]; intros H.
  - reflexivity.
  - rewrite append_cons. cbn [split_colon].
    destruct (Ascii.eqb_spec c ":") as [E | _].
    + exfalso. apply (H c); [cbn; tauto | exact E].
    + rewrite IH; [reflexivity |]. intros c' Hc'. apply H. cbn. tauto.
Qed.

Lemma uint_chars (d : Decimal.uint) (c : ascii) :
  In c (list_ascii_of_string (NilEmpty.string_of_uint d)) -> c <> ":"%char.
Proof.
  induction d; cbn; try tauto; intros [<- | H]; try discriminate; auto.
Qed.

Lemma zeros_chars (k : nat) (c : ascii) :
  In c (list_ascii_of_string (zeros k)) -> c <> ":"%char.
Proof.
  induction k as [| k IH]; cbn; [tauto |].
  intros [<- | H]; [discriminate | auto].
Qed.

Lemma str_nonneg (n : Z) :
  0 <= n ->
  exists d, d <> Decimal.Nil /\ str n = NilEmpty.string_of_uint d /\
            Z.of_uint d = n.
Proof.
  intros H. destruct n as [| p | p]; [| | lia].
  - exists (Decimal.D0 Decimal.Nil). repeat split. discriminate.
  - exists (Pos.to_uint p).
    pose proof (DecimalPos.Unsigned.to_uint_nonnil p) as Hn.
    split; [exact Hn |]. split.
    + unfold str. cbn. now destruct (Pos.to_uint p).
    + exact (DecimalZ.of_to (Z.pos p)).
Qed.

Lemma uint_of_zeros (k : nat) (s : string) :
  NilEmpty.uint_of_string (zeros k ++ s) =
  option_map (Nat.iter k Decimal.D0) (NilEmpty.uint_of_string s).
Proof.
  induction k as [| k IH].
  - change (zeros 0 ++ s)%string with s.
    now destruct (NilEmpty.uint_of_string s).
  - change (zeros (S k)) with (String "0" (zeros k)).
    rewrite append_cons. cbn [NilEmpty.uint_of_string]. rewrite IH.
    now destruct (NilEmpty.uint_of_string s).
Qed.

Lemma of_uint_zeros (k : nat) (d : Decimal.uint) :
  Z.of_uint (Nat.iter k Decimal.D0 d) = Z.of_uint d.
Proof. induction k as [| k IH]; cbn; [reflexivity | exact IH]. Qed.

Lemma unsigned_padded (k : nat) (d : Decimal.uint) :
  d <> Decimal.Nil ->
  unsigned (zeros k ++ NilEmpty.string_of_uint d) = Some (Z.of_uint d).
Proof.
  intros Hd. unfold unsigned, NilZero.uint_of_string.
  assert (NilEmpty.uint_of_string (zeros k ++ NilEmpty.string_of_uint d)
          = Some (Nat.iter k Decimal.D0 d)) as E
    by now rewrite uint_of_zeros, NilEmpty.usu.
  destruct (zeros k ++ NilEmpty.string_of_uint d)%string eqn:Es.
  - cbn in E. injection E as E. destruct k; cbn in E;
      [now subst d | discriminate].
  - rewrite E. cbn. now rewrite of_uint_zeros.
Qed.

Lemma format_02d_nonneg (n : Z) :
  0 <= n ->
  format_02d n = (zeros (2 - String.length (str n)) ++ str n)%string.
Proof.
  intros H. unfold format_02d.
  destruct (Z.ltb_spec n 0); [lia |]. now rewrite Z.abs_eq.
Qed.

Lemma format_02d_read (n : Z) :
  0 <= n ->
  unsigned (format_02d n) = Some n /\
  forall c, In c (list_ascii_of_string (format_02d n)) -> c <> ":"%char.
Proof.
  intros H. rewrite format_02d_nonneg by exact H.
  destruct (str_nonneg n H) as (d & Hd & -> & Hv).
  split.
  - rewrite unsigned_padded by exact Hd. now rewrite Hv.
  - intros c. rewrite chars_app, in_app_iff.
    intros [Hc | Hc]; [exact (zeros_chars _ c Hc) | exact (uint_chars d c Hc)].
Qed.

(** X6. For [seconds >= 0] the text of [format_time] can be read back: the
    number before the colon times 60 plus the number after it is
    [seconds].  So two different times never show the same text. *)
Theorem format_time_round_trip (seconds : Z) :
  0 <= seconds ->
  read_clock (format_time seconds) = Some seconds.
Proof.
  intros H. unfold read_clock, format_time.
  assert (0 <= seconds / 60) as Hm by (apply Z.div_pos; lia).
  assert (0 <= seconds mod 60) as Hs by (apply Z.mod_pos_bound; lia).
  destruct (format_02d_read _ Hm) as [Um Cm].
  destruct (format_02d_read _ Hs) as [Us _].
  change (":" ++ format_02d (seconds mod 60))%string
    with (String ":" (format_02d (seconds mod 60))).
  rewrite (split_colon_app _ _ Cm), Um, Us. f_equal.
  pose proof (Z.div_mod seconds 60). lia.
Qed.

Lemma format_time_round_trip_witness :
  read_clock (format_time 1499) = Some 1499.
Proof. apply (format_time_round_trip 1499). lia. Defined.

Lemma format_02d_two (n : Z) :
  0 <= n < 100 ->
  format_02d n =
  String (ascii_of_nat (48 + Z.to_nat (n / 10)))
    (String (ascii_of_nat (48 + Z.to_nat (n mod 10))) EmptyString).
Proof.
  intros H. rewrite <- (Z2Nat.id n) by lia.
  assert (Z.to_nat n < 100)%nat as Hk by lia.
  generalize dependent (Z.to_nat n). clear H. intros k Hk.
  do 100 (destruct k as [| k]; [vm_compute; reflexivity |]). lia.
Qed.

(** X7. For [0 <= seconds < 6000] (less than 100 minutes) [format_time]
    shows exactly five characters: the two decimal digits of the minutes, a
    colon, the two decimal digits of the seconds within the minute. *)
Theorem format_time_mm_ss (seconds : Z) :
  0 <= seconds < 6000 ->
  let digit := fun d : Z => ascii_of_nat (48 + Z.to_nat d) in
  let m := seconds / 60 in
  let s := seconds mod 60 in
  format_time seconds =
  string_of_list_ascii
    [digit (m / 10); digit (m mod 10); ":"%char;
     digit (s / 10); digit (s mod 10)].
Proof.
  intros H digit m s. unfold format_time.
  assert (0 <= m < 100) as Hm
    by (subst m; split; [apply Z.div_pos; lia | apply Z.div_lt_upper_bound; lia]).
  assert (0 <= s < 60) as Hs by (subst s; apply Z.mod_pos_bound; lia).
  fold m s. rewrite (format_02d_two m Hm), (format_02d_two s) by lia.
  reflexivity.
Qed.

Lemma format_time_mm_ss_witness :
  let digit := fun d : Z => ascii_of_nat (48 + Z.to_nat d) in
  let m := 1499 / 60 in
  let s := 1499 mod 60 in
  format_time 1499 =
  string_of_list_ascii
    [digit (m / 10); digit (m mod 10); ":"%char;
     digit (s / 10); digit (s mod 10)].
Proof. apply (format_time_mm_ss 1499). lia. Defined.

End ClockFace.

(** * Properties of [MainWindow] *)

(** Comparisons of two string literals are evaluated. *)
Ltac eqb_lit :=
  repeat match goal with
         | |- context [String.eqb ?a ?b] =>
             let v := eval cbv in (String.eqb a b) in
             match v with
             | true => change (String.eqb a b) with true
             | false => change (String.eqb a b) with false
             end
         end.

(** Simplification that leaves the timer's methods, the dictionaries and the
    arithmetic folded. *)
Ltac app_cbn :=
  cbn -[PomodoroTimer.pause PomodoroTimer.start PomodoroTimer.set_session
        PomodoroTimer.tick PomodoroTimer.get_next_break_type
        PomodoroTimer.reset PomodoroTimer.setting String.eqb
        Z.mul Z.add Z.sub lookup insert Utility.format_time Utility.str
        MainWindow.ui_map MainWindow.completion_details
        MainWindow._update_ui].

Ltac loop_simpl :=
  unfold MainWindow.set_timer, MainWindow.set_sessions,
    MainWindow.set_auto_start;
  app_cbn; eqb_lit; app_cbn.

Ltac window_simpl :=
  unfold PomodoroTimer.set_state, PomodoroTimer.set_time_left;
  loop_simpl.

Ltac window_step :=
  unfold MainWindow.toggle_work, MainWindow.toggle_break,
    MainWindow.reset_timer, bind, gets, ret, lift, modify,
    MainWindow.on_timer, MainWindow.get_auto_start, MainWindow._save_data;
  window_simpl.


Section Buttons.

Import MainWindow.

Lemma set_session_work (t : PomodoroTimer.timer) :
  PomodoroTimer.set_session "work" t =
  match PomodoroTimer.settings t !! "work_duration" with
  | Some D =>
      (PomodoroTimer.Timer (PomodoroTimer.settings t) "idle" "work" (D * 60)
         (PomodoroTimer.completed_sessions t), Done tt)
  | None =>
      (PomodoroTimer.Timer (PomodoroTimer.settings t) "idle" "work"
         (PomodoroTimer.time_left t) (PomodoroTimer.completed_sessions t),
       Raised (KeyError "work_duration"))
  end.
Proof. rewrite set_session_eq, key_map_lookup. reflexivity. Qed.

(** X8. The work button.  On a work session [toggle_work] pauses a running
    timer and starts any other, and touches nothing but the state.  On a
    break it abandons the break: the timer becomes a running work session
    with the full work duration; without a ["work_duration"] entry it raises
    [KeyError] and leaves an idle work session with the break's
    [time_left].  It never changes [completed_sessions], the history or
    [auto_start]. *)
Theorem toggle_work_cases (w : main_window) :
  let t := timer w in
  (PomodoroTimer.session_type t = "work" ->
   toggle_work w =
   (set_timer
      (PomodoroTimer.set_state
         (if (PomodoroTimer.state t =? "running")%string
          then "paused" else "running") t) w,
    Done tt)) /\
  (PomodoroTimer.session_type t <> "work" ->
   forall D, PomodoroTimer.settings t !! "work_duration" = Some D ->
   toggle_work w =
   (set_timer
      (PomodoroTimer.Timer (PomodoroTimer.settings t) "running" "work"
         (D * 60) (PomodoroTimer.completed_sessions t)) w,
    Done tt)) /\
  (PomodoroTimer.session_type t <> "work" ->
   PomodoroTimer.settings t !! "work_duration" = None ->
   toggle_work w =
   (set_timer
      (PomodoroTimer.Timer (PomodoroTimer.settings t) "idle" "work"
         (PomodoroTimer.time_left t) (PomodoroTimer.completed_sessions t)) w,
    Raised (KeyError "work_duration"))) /\
  PomodoroTimer.completed_sessions (timer (fst (toggle_work w))) =
    PomodoroTimer.completed_sessions t /\
  sessions (fst (toggle_work w)) = sessions w /\
  auto_start (fst (toggle_work w)) = auto_start w.
Proof.
  destruct w as [t a ss]. cbn zeta. window_step.
  destruct (String.eqb_spec (PomodoroTimer.session_type t) "work") as [Ew | Ew];
    window_simpl.
  - destruct (String.eqb_spec (PomodoroTimer.state t) "running") as [Er | Er];
      window_simpl.
    + rewrite pause_eq, Er. window_simpl.
      repeat split; intros; try reflexivity; contradiction.
    + rewrite start_eq. window_simpl.
      repeat split; intros; try reflexivity; contradiction.
  - rewrite set_session_work.
    destruct (PomodoroTimer.settings t !! "work_duration") as [D |] eqn:HD;
      window_simpl.
    + rewrite start_eq. window_simpl.
      repeat split; intros; try reflexivity; try contradiction; try discriminate.
      congruence.
    + repeat split; intros; try reflexivity; try contradiction; discriminate.
Qed.

(** The answer of [get_next_break_type()] for a cadence other than 0. *)
Lemma next_break_value (t : PomodoroTimer.timer) (n : Z) :
  PomodoroTimer.settings t !! "sessions_per_long_break" = Some n ->
  n <> 0 ->
  PomodoroTimer.get_next_break_type t =
  (t, Done (if PomodoroTimer.completed_sessions t =? 0 then "short_break"
            else if PomodoroTimer.completed_sessions t mod n =? 0
                 then "long_break" else "short_break")).
Proof.
  intros Hn Hz.
  unfold PomodoroTimer.get_next_break_type, bind, PomodoroTimer.setting,
    getitem, gets, lift, ret, mod_.
  rewrite Hn.
  destruct (PomodoroTimer.completed_sessions t =? 0); [reflexivity |].
  destruct (Z.eqb_spec n 0); [contradiction |].
  now destruct (PomodoroTimer.completed_sessions t mod n =? 0).
Qed.

Lemma next_break_missing (t : PomodoroTimer.timer) :
  PomodoroTimer.settings t !! "sessions_per_long_break" = None ->
  PomodoroTimer.get_next_break_type t =
  (t, Raised (KeyError "sessions_per_long_break")).
Proof.
  intros Hn.
  unfold PomodoroTimer.get_next_break_type, bind, PomodoroTimer.setting,
    getitem.
  now rewrite Hn.
Qed.

Lemma set_session_break (b : string) (t : PomodoroTimer.timer) :
  b = "short_break" \/ b = "long_break" ->
  PomodoroTimer.set_session b t =
  match PomodoroTimer.settings t !! b with
  | Some d =>
      (PomodoroTimer.Timer (PomodoroTimer.settings t) "idle" b (d * 60)
         (PomodoroTimer.completed_sessions t), Done tt)
  | None =>
      (PomodoroTimer.Timer (PomodoroTimer.settings t) "idle" b
         (PomodoroTimer.time_left t) (PomodoroTimer.completed_sessions t),
       Raised (KeyError b))
  end.
Proof.
  intros [-> | ->]; rewrite set_session_eq, key_map_lookup; reflexivity.
Qed.

(** X9. The break button.  During a work session [toggle_break] asks
    [get_next_break_type()] and switches to that break: with a cadence
    [n <> 0] and the break's duration [d] in the settings the timer becomes
    a running break of [d * 60] seconds, long exactly when
    [completed_sessions] is a non-zero multiple of [n]; the work session's
    progress is dropped and [completed_sessions] is not raised.  Without the
    cadence entry it raises [KeyError] and changes nothing at all.  During
    a break it only pauses a running timer or starts any other. *)
Theorem toggle_break_cases (w : main_window) :
  let t := timer w in
  let c := PomodoroTimer.completed_sessions t in
  (PomodoroTimer.session_type t = "work" ->
   forall n d,
     PomodoroTimer.settings t !! "sessions_per_long_break" = Some n ->
     n <> 0 ->
     let b := if c =? 0 then "short_break"
              else if c mod n =? 0 then "long_break" else "short_break" in
     PomodoroTimer.settings t !! b = Some d ->
     toggle_break w =
     (set_timer
        (PomodoroTimer.Timer (PomodoroTimer.settings t) "running" b (d * 60) c)
        w, Done tt)) /\
  (PomodoroTimer.session_type t = "work" ->
   PomodoroTimer.settings t !! "sessions_per_long_break" = None ->
   toggle_break w = (w, Raised (KeyError "sessions_per_long_break"))) /\
  (PomodoroTimer.session_type t <> "work" ->
   toggle_break w =
   (set_timer
      (PomodoroTimer.set_state
         (if (PomodoroTimer.state t =? "running")%string
          then "paused" else "running") t) w,
    Done tt)).
Proof.
  destruct w as [t a ss]. cbn zeta. window_step.
  destruct (String.eqb_spec (PomodoroTimer.session_type t) "work") as [Ew | Ew];
    window_simpl.
  - split; [| split; [| intros; contradiction]].
    + intros _ n d Hn Hz Hd.
      rewrite (next_break_value t n Hn Hz). window_simpl.
      rewrite set_session_break
        by (destruct (PomodoroTimer.completed_sessions t =? 0); [now left |];
            destruct (PomodoroTimer.completed_sessions t mod n =? 0);
            [now right | now left]).
      window_simpl. rewrite Hd. window_simpl.
      rewrite start_eq. reflexivity.
    + intros _ Hn.
      rewrite (next_break_missing t Hn).
      window_simpl. now destruct t.
  - split; [intros; contradiction |]. split; [intros; contradiction |].
    intros _.
    destruct (String.eqb_spec (PomodoroTimer.state t) "running") as [Er | Er];
      window_simpl.
    + rewrite pause_eq, Er. reflexivity.
    + rewrite start_eq. reflexivity.
Qed.

Lemma ui_map_lookup (category s : string) :
  category = "work" \/ category = "break" ->
  ui_map !! (category ++ "_" ++ s)%string =
  if (s =? "idle")%string
  then Some ("Ready To Work.", "Start Work", "Start Break")
  else if (s =? "running")%string
  then Some (if (category =? "work")%string
             then ("Working...", "Pause Work", "Start Break")
             else ("Break...", "Start Work", "Pause Break"))
  else if (s =? "paused")%string
  then Some (if (category =? "work")%string
             then ("Work Paused", "Start Work", "Start Break")
             else ("Break Paused", "Start Work", "Start Break"))
  else None.
Proof.
  intros Hc.
  destruct (String.eqb_spec s "idle") as [-> | Ni];
    [destruct Hc as [-> | ->]; reflexivity |].
  destruct (String.eqb_spec s "running") as [-> | Nr];
    [destruct Hc as [-> | ->]; reflexivity |].
  destruct (String.eqb_spec s "paused") as [-> | Np];
    [destruct Hc as [-> | ->]; reflexivity |].
  unfold ui_map. cbn [list_to_map foldr uncurry fst snd].
  destruct Hc as [-> | ->];
    [change ("work" ++ "_" ++ s)%string
       with (String "w" (String "o" (String "r" (String "k" (String "_" s)))))
    |change ("break" ++ "_" ++ s)%string
       with (String "b" (String "r" (String "e" (String "a"
              (String "k" (String "_" s))))))];
    repeat (rewrite lookup_insert_ne by (intros [= E]; auto));
    apply lookup_empty.
Qed.

(** X10. What the window shows.  For a timer that is idle, running or
    paused [_update_ui] raises nothing and changes nothing; the clock shows
    [format_time(time_left)]; the work button reads "Pause Work" exactly
    when a work session is running and "Start Work" otherwise; the break
    button reads "Pause Break" exactly when a break is running and
    "Start Break" otherwise; the status reads "Ready To Work." exactly when
    the timer is idle.  For any other state it raises [KeyError] with the
    key it looked up. *)
Theorem update_ui_texts (w : main_window) :
  let t := timer w in
  let st := PomodoroTimer.state t in
  let work := PomodoroTimer.session_type t = "work" in
  let category := if (PomodoroTimer.session_type t =? "work")%string
                  then "work" else "break" in
  (st = "idle" \/ st = "running" \/ st = "paused" ->
   exists u,
     _update_ui w = (w, Done u) /\
     timer_display u = Utility.format_time (PomodoroTimer.time_left t) /\
     (work_button u = "Pause Work" <-> work /\ st = "running") /\
     (work_button u <> "Pause Work" -> work_button u = "Start Work") /\
     (break_button u = "Pause Break" <-> ~ work /\ st = "running") /\
     (break_button u <> "Pause Break" -> break_button u = "Start Break") /\
     (status_label u = "Ready To Work." <-> st = "idle")) /\
  (st <> "idle" -> st <> "running" -> st <> "paused" ->
   _update_ui w = (w, Raised (KeyError (category ++ "_" ++ st)%string))).
Proof.
  destruct w as [t a ss]. cbn zeta.
  unfold _update_ui, bind, gets, ret, lift, getitem. window_simpl.
  rewrite ui_map_lookup
    by (destruct (PomodoroTimer.session_type t =? "work")%string; tauto).
  destruct (String.eqb_spec (PomodoroTimer.session_type t) "work") as [Ew | Ew];
    (split;
     [ intros [E | [E | E]]; rewrite E; eqb_lit; cbn [String.eqb];
       eexists; (split; [reflexivity |]); cbn;
       repeat split; intros; try congruence; try tauto; try discriminate;
       try (exfalso; tauto);
       try match goal with
           | H : _ /\ _ |- _ => destruct H; congruence
           end
     | intros Ni Nr Np;
       destruct (String.eqb_spec (PomodoroTimer.state t) "idle");
       [contradiction |];
       destruct (String.eqb_spec (PomodoroTimer.state t) "running");
       [contradiction |];
       destruct (String.eqb_spec (PomodoroTimer.state t) "paused");
       [contradiction | reflexivity] ]).
Qed.

End Buttons.

Section UpdateLoop.

Import MainWindow.

Lemma update_ui_frame (w : main_window) : fst (_update_ui w) = w.
Proof.
  destruct w as [t a ss].
  unfold _update_ui, bind, gets, ret, lift. loop_simpl.
  destruct (getitem ui_map _) as [[[s1 s2] s3] | e]; reflexivity.
Qed.

Lemma completion_details_work (next : string) :
  completion_details next !! "work_complete" = Some next.
Proof. reflexivity. Qed.

Lemma completion_details_break (next : string) :
  completion_details next !! "break_complete" = Some "work".
Proof. reflexivity. Qed.

Lemma set_session_completed (b : string) (t : PomodoroTimer.timer) :
  PomodoroTimer.completed_sessions (fst (PomodoroTimer.set_session b t)) =
  PomodoroTimer.completed_sessions t.
Proof.
  rewrite set_session_eq.
  destruct (PomodoroTimer.key_map !! b) as [k |]; [| reflexivity].
  now destruct (PomodoroTimer.settings t !! k).
Qed.

(** [_update_loop] with its sequencing spelled out. *)
Lemma update_loop_eq (now : string) (w : main_window) :
  _update_loop now w =
  match PomodoroTimer.tick (timer w) with
  | (t1, Done None) => _update_ui (set_timer t1 w)
  | (t1, Done (Some r)) =>
      if negb (r =? "")%string
      then
        match PomodoroTimer.get_next_break_type t1 with
        | (t2, Done next_break) =>
            match completion_details next_break !! r with
            | Some next =>
                let w3 :=
                  Window t2 (auto_start w)
                    (if (r =? "work_complete")%string
                     then sessions w ++ [StatsWindow.Session now]
                     else sessions w) in
                match auto_start w with
                | None => (w3, Raised (KeyError "auto_start"))
                | Some true =>
                    match PomodoroTimer.set_session next t2 with
                    | (t4, Done _) =>
                        _update_ui
                          (set_timer (PomodoroTimer.set_state "running" t4) w3)
                    | (t4, Raised e) => (set_timer t4 w3, Raised e)
                    end
                | Some false => _update_ui w3
                end
            | None => _update_ui (set_timer t2 w)
            end
        | (t2, Raised e) => (set_timer t2 w, Raised e)
        end
      else _update_ui (set_timer t1 w)
  | (t1, Raised e) => (set_timer t1 w, Raised e)
  end.
Proof.
  destruct w as [t a ss].
  unfold _update_loop, bind, on_timer, ret, modify, get_auto_start, _save_data.
  loop_simpl.
  destruct (PomodoroTimer.tick t) as [t1 [[r |] | e]]; loop_simpl;
    try reflexivity.
  destruct (r =? "")%string; loop_simpl; [reflexivity |].
  destruct (PomodoroTimer.get_next_break_type t1) as [t2 [nb | e]];
    loop_simpl; [| reflexivity].
  destruct (completion_details nb !! r) as [next |]; loop_simpl;
    [| reflexivity].
  destruct (r =? "work_complete")%string; loop_simpl;
    (destruct a as [[|] |]; loop_simpl; [| reflexivity | reflexivity];
     destruct (PomodoroTimer.set_session next t2) as [t4 [[] | e]];
     loop_simpl; [| reflexivity];
     rewrite start_eq; reflexivity).
Qed.

Lemma update_ui_done (w : main_window) :
  PomodoroTimer.state (timer w) = "idle" \/
  PomodoroTimer.state (timer w) = "running" \/
  PomodoroTimer.state (timer w) = "paused" ->
  exists u, _update_ui w = (w, Done u).
Proof.
  destruct w as [t a ss]. cbn [timer]. intros H.
  unfold _update_ui, bind, gets, ret, lift, getitem. loop_simpl.
  rewrite ui_map_lookup
    by (destruct (PomodoroTimer.session_type t =? "work")%string; tauto).
  destruct H as [E | [E | E]]; rewrite E; eqb_lit; cbn [String.eqb];
    destruct (PomodoroTimer.session_type t =? "work")%string;
    eexists; reflexivity.
Qed.

Lemma next_break_eq (t : PomodoroTimer.timer) :
  PomodoroTimer.get_next_break_type t =
  (t, match PomodoroTimer.settings t !! "sessions_per_long_break" with
      | None => Raised (KeyError "sessions_per_long_break")
      | Some n =>
          if PomodoroTimer.completed_sessions t =? 0 then Done "short_break"
          else if n =? 0 then Raised ZeroDivisionError
          else Done (if PomodoroTimer.completed_sessions t mod n =? 0
                     then "long_break" else "short_break")
      end).
Proof.
  unfold PomodoroTimer.get_next_break_type, bind, PomodoroTimer.setting,
    getitem, gets, lift, ret, mod_.
  destruct (PomodoroTimer.settings t !! "sessions_per_long_break") as [n |];
    [| reflexivity].
  destruct (PomodoroTimer.completed_sessions t =? 0); [reflexivity |].
  destruct (n =? 0); [reflexivity |].
  now destruct (PomodoroTimer.completed_sessions t mod n =? 0).
Qed.

(** What follows a recorded completion (the [auto_start] test, the switch
    to the next session, the refresh of the widgets) keeps the session list
    and [completed_sessions]. *)
Lemma after_completion_frame (next : string) (w3 : main_window) :
  let r :=
    match auto_start w3 with
    | None => (w3, Raised (KeyError "auto_start"))
    | Some true =>
        match PomodoroTimer.set_session next (timer w3) with
        | (t4, Done _) =>
            _update_ui (set_timer (PomodoroTimer.set_state "running" t4) w3)
        | (t4, Raised e) => (set_timer t4 w3, Raised e)
        end
    | Some false => _update_ui w3
    end in
  sessions (fst r) = sessions w3 /\
  PomodoroTimer.completed_sessions (timer (fst r)) =
    PomodoroTimer.completed_sessions (timer w3).
Proof.
  destruct w3 as [t a ss]. cbn zeta. loop_simpl.
  destruct a as [[|] |]; loop_simpl.
  - pose proof (set_session_completed next t) as Hc.
    destruct (PomodoroTimer.set_session next t) as [t4 [[] | e]]; loop_simpl;
      [| now split].
    rewrite (surjective_pairing (_update_ui _)), update_ui_frame. now split.
  - rewrite (surjective_pairing (_update_ui _)), update_ui_frame. now split.
  - now split.
Qed.

(** X11. The history and the counter.  Call a round of [_update_loop]
    completing when it finds a running work session with one second left.
    A completing round raises [completed_sessions] by 1, always.  It
    appends exactly one record, stamped with the current time, at the end
    of the session list when the cadence entry is present and not 0 (or the
    raised counter is 0), whatever [auto_start] is.  When the cadence entry
    is missing, or is 0 while the raised counter is not, the completing
    round raises [KeyError], respectively [ZeroDivisionError], and the
    session list stays as it was.  A round that is not completing changes
    neither the session list nor [completed_sessions]. *)
Theorem history_follows_completions (now : string) (w : main_window) :
  let t := timer w in
  let c := PomodoroTimer.completed_sessions t in
  let cadence := PomodoroTimer.settings t !! "sessions_per_long_break" in
  let completing :=
    PomodoroTimer.state t = "running" /\ PomodoroTimer.time_left t = 1 /\
    PomodoroTimer.session_type t = "work" in
  let w' := fst (_update_loop now w) in
  (completing ->
   PomodoroTimer.completed_sessions (timer w') = c + 1) /\
  (completing ->
   forall n, cadence = Some n -> n <> 0 \/ c + 1 = 0 ->
   sessions w' = (sessions w ++ [StatsWindow.Session now])%list) /\
  (completing ->
   cadence = None ->
   sessions w' = sessions w /\
   snd (_update_loop now w) = Raised (KeyError "sessions_per_long_break")) /\
  (completing ->
   cadence = Some 0 -> c + 1 <> 0 ->
   sessions w' = sessions w /\
   snd (_update_loop now w) = Raised ZeroDivisionError) /\
  (~ completing ->
   sessions w' = sessions w /\
   PomodoroTimer.completed_sessions (timer w') = c).
Proof.
  destruct w as [t a ss]. cbn zeta. rewrite update_loop_eq. loop_simpl.
  split; [| split; [| split; [| split]]].
  - intros (Er & E1 & Ew).
    rewrite (tick_work_complete t Er E1 Ew). loop_simpl.
    rewrite next_break_eq. loop_simpl.
    destruct (PomodoroTimer.settings t !! "sessions_per_long_break") as [n |];
      [| reflexivity].
    destruct (PomodoroTimer.completed_sessions t + 1 =? 0).
    + rewrite completion_details_work. loop_simpl.
      match goal with
      | |- context [Window ?t2 a ?l] =>
          exact (proj2 (after_completion_frame "short_break" (Window t2 a l)))
      end.
    + destruct (n =? 0); [reflexivity |].
      rewrite completion_details_work. loop_simpl.
      match goal with
      | |- context [PomodoroTimer.set_session ?b ?t2] =>
          match goal with
          | |- context [Window t2 a ?l] =>
              exact (proj2 (after_completion_frame b (Window t2 a l)))
          end
      end.
  - intros (Er & E1 & Ew) n Hn Hok.
    rewrite (tick_work_complete t Er E1 Ew). loop_simpl.
    rewrite next_break_eq. loop_simpl. rewrite Hn.
    destruct (Z.eqb_spec (PomodoroTimer.completed_sessions t + 1) 0)
      as [E0 | N0].
    + rewrite completion_details_work. loop_simpl.
      match goal with
      | |- context [Window ?t2 a ?l] =>
          exact (proj1 (after_completion_frame "short_break" (Window t2 a l)))
      end.
    + destruct (Z.eqb_spec n 0) as [Ez | Nz]; [lia |].
      rewrite completion_details_work. loop_simpl.
      match goal with
      | |- context [PomodoroTimer.set_session ?b ?t2] =>
          match goal with
          | |- context [Window t2 a ?l] =>
              exact (proj1 (after_completion_frame b (Window t2 a l)))
          end
      end.
  - intros (Er & E1 & Ew) Hn.
    rewrite (tick_work_complete t Er E1 Ew). loop_simpl.
    rewrite next_break_eq. loop_simpl. rewrite Hn. now split.
  - intros (Er & E1 & Ew) Hn N0.
    rewrite (tick_work_complete t Er E1 Ew). loop_simpl.
    rewrite next_break_eq. loop_simpl. rewrite Hn.
    destruct (Z.eqb_spec (PomodoroTimer.completed_sessions t + 1) 0);
      [contradiction |].
    now split.
  - intros Hno.
    destruct (String.eqb_spec (PomodoroTimer.state t) "running") as [Er | Er].
    2:{ rewrite (tick_idle t) by now left. loop_simpl.
        rewrite (surjective_pairing (_update_ui _)), update_ui_frame.
        now split. }
    destruct (Z.le_gt_cases (PomodoroTimer.time_left t) 0) as [Hl | Hl].
    { rewrite (tick_idle t) by now right. loop_simpl.
      rewrite (surjective_pairing (_update_ui _)), update_ui_frame.
      now split. }
    destruct (Z.eq_dec (PomodoroTimer.time_left t) 1) as [E1 | N1].
    2:{ rewrite (tick_count t) by (try assumption; lia). loop_simpl.
        rewrite (surjective_pairing (_update_ui _)), update_ui_frame.
        now split. }
    assert (PomodoroTimer.session_type t <> "work") as Ew by tauto.
    rewrite (tick_break_complete t Er E1 Ew). loop_simpl.
    match goal with
    | |- context [PomodoroTimer.get_next_break_type ?t1] =>
        pose proof (get_next_break_type_pure t1) as Hp;
        destruct (PomodoroTimer.get_next_break_type t1) as [t2 [nb | e]]
    end; cbn in Hp; subst; loop_simpl; [| now split].
    rewrite completion_details_break. loop_simpl.
    match goal with
    | |- context [Window ?t2 a ss] =>
        exact (after_completion_frame "work" (Window t2 a ss))
    end.
Qed.

(** X12. A completion that is counted but not recorded: when the cadence
    entry is missing from the settings, the round in which a work session
    completes raises [KeyError] while [completion_details] is built.  By
    then [tick()] has made the timer idle and raised
    [completed_sessions]; no record is appended and the widgets are not
    refreshed. *)
Theorem completion_lost_without_cadence (now : string) (w : main_window) :
  let t := timer w in
  PomodoroTimer.state t = "running" ->
  PomodoroTimer.time_left t = 1 ->
  PomodoroTimer.session_type t = "work" ->
  PomodoroTimer.settings t !! "sessions_per_long_break" = None ->
  _update_loop now w =
  (Window
     (PomodoroTimer.Timer (PomodoroTimer.settings t) "idle" "work" 0
        (PomodoroTimer.completed_sessions t + 1))
     (auto_start w) (sessions w),
   Raised (KeyError "sessions_per_long_break")).
Proof.
  destruct w as [t a ss]. cbn zeta. cbn [timer auto_start sessions].
  intros Er E1 Ew Hn.
  rewrite update_loop_eq. loop_simpl.
  rewrite (tick_work_complete t Er E1 Ew). loop_simpl.
  rewrite next_break_missing by exact Hn. reflexivity.
Qed.

Lemma completion_lost_without_cadence_witness :
  let s := delete "sessions_per_long_break" TIMER_DEFAULTS in
  _update_loop "2024-06-03T09:25:00"
    (Window (PomodoroTimer.Timer s "running" "work" 1 0) (Some false) []) =
  (Window (PomodoroTimer.Timer s "idle" "work" 0 (0 + 1)) (Some false) [],
   Raised (KeyError "sessions_per_long_break")).
Proof.
  intros s.
  exact (completion_lost_without_cadence "2024-06-03T09:25:00"
           (Window (PomodoroTimer.Timer s "running" "work" 1 0) (Some false) [])
           eq_refl eq_refl eq_refl eq_refl).
Defined.

Lemma update_ui_eq (w : main_window) :
  let t := timer w in
  let category := if (PomodoroTimer.session_type t =? "work")%string
                  then "work" else "break" in
  let key := (category ++ "_" ++ PomodoroTimer.state t)%string in
  _update_ui w =
  (w, match ui_map !! key with
      | Some (status_text, work_text, break_text) =>
          Done (Ui (Utility.format_time (PomodoroTimer.time_left t))
                   status_text work_text break_text)
      | None => Raised (KeyError key)
      end).
Proof.
  destruct w as [t a ss]. cbn zeta.
  unfold _update_ui, bind, gets, ret, lift, getitem. loop_simpl.
  destruct (ui_map !! _) as [[[s1 s2] s3] |]; reflexivity.
Qed.

(** X13. Chaining with [auto_start].  Take a round of [_update_loop] that
    finds [auto_start] on, a running timer with one second left, and a
    cadence entry that is present and not 0.  If the session is a work
    session and the break that [get_next_break_type()] names for the raised
    counter has its duration [d] in the settings, the round records the
    completion and leaves the timer running that break with [d * 60]
    seconds, the status reading "Break...".  If the session is a break and
    ["work_duration"] is [D], the round leaves the timer running a work
    session with [D * 60] seconds, the status reading "Working...", and
    the session list as it was. *)
Theorem auto_start_chains_sessions (now : string) (w : main_window) (n : Z) :
  let t := timer w in
  let c := PomodoroTimer.completed_sessions t in
  auto_start w = Some true ->
  PomodoroTimer.state t = "running" ->
  PomodoroTimer.time_left t = 1 ->
  PomodoroTimer.settings t !! "sessions_per_long_break" = Some n ->
  n <> 0 ->
  (PomodoroTimer.session_type t = "work" ->
   forall d,
     let b := if c + 1 =? 0 then "short_break"
              else if (c + 1) mod n =? 0 then "long_break"
                   else "short_break" in
     PomodoroTimer.settings t !! b = Some d ->
     _update_loop now w =
     (Window
        (PomodoroTimer.Timer (PomodoroTimer.settings t) "running" b (d * 60)
           (c + 1))
        (Some true) (sessions w ++ [StatsWindow.Session now]),
      Done (Ui (Utility.format_time (d * 60)) "Break..." "Start Work"
               "Pause Break"))) /\
  (PomodoroTimer.session_type t <> "work" ->
   forall D,
     PomodoroTimer.settings t !! "work_duration" = Some D ->
     _update_loop now w =
     (Window
        (PomodoroTimer.Timer (PomodoroTimer.settings t) "running" "work"
           (D * 60) c)
        (Some true) (sessions w),
      Done (Ui (Utility.format_time (D * 60)) "Working..." "Pause Work"
               "Start Break"))).
Proof.
  destruct w as [t a ss]. cbn zeta. cbn [timer auto_start sessions].
  intros -> Er E1 Hn Hz. rewrite update_loop_eq. loop_simpl.
  split.
  - intros Ew d Hd.
    rewrite (tick_work_complete t Er E1 Ew). loop_simpl.
    rewrite (next_break_value _ n) by assumption. loop_simpl.
    rewrite completion_details_work. loop_simpl.
    match goal with
    | |- context [PomodoroTimer.set_session ?b _] =>
        assert (b = "short_break" \/ b = "long_break") as Hb
          by (destruct (PomodoroTimer.completed_sessions t + 1 =? 0);
              [now left |];
              destruct ((PomodoroTimer.completed_sessions t + 1) mod n =? 0);
              [now right | now left])
    end.
    rewrite (set_session_break _ _ Hb). loop_simpl. rewrite Hd. loop_simpl.
    rewrite update_ui_eq. loop_simpl.
    destruct Hb as [-> | ->]; reflexivity.
  - intros Ew D HD.
    rewrite (tick_break_complete t Er E1 Ew). loop_simpl.
    rewrite (next_break_value _ n) by assumption. loop_simpl.
    rewrite completion_details_break. loop_simpl.
    rewrite set_session_work. loop_simpl. rewrite HD. loop_simpl.
    rewrite update_ui_eq. reflexivity.
Qed.

Lemma auto_start_chains_sessions_witness :
  let w := Window (PomodoroTimer.Timer TIMER_DEFAULTS "running" "work" 1 3)
                  (Some true) [] in
  let t := timer w in
  let c := PomodoroTimer.completed_sessions t in
  (PomodoroTimer.session_type t = "work" ->
   forall d,
     let b := if c + 1 =? 0 then "short_break"
              else if (c + 1) mod 4 =? 0 then "long_break"
                   else "short_break" in
     PomodoroTimer.settings t !! b = Some d ->
     _update_loop "2024-06-03T09:25:00" w =
     (Window
        (PomodoroTimer.Timer (PomodoroTimer.settings t) "running" b (d * 60)
           (c + 1))
        (Some true) (sessions w ++ [StatsWindow.Session "2024-06-03T09:25:00"]),
      Done (Ui (Utility.format_time (d * 60)) "Break..." "Start Work"
               "Pause Break"))) /\
  (PomodoroTimer.session_type t <> "work" ->
   forall D,
     PomodoroTimer.settings t !! "work_duration" = Some D ->
     _update_loop "2024-06-03T09:25:00" w =
     (Window
        (PomodoroTimer.Timer (PomodoroTimer.settings t) "running" "work"
           (D * 60) c)
        (Some true) (sessions w),
      Done (Ui (Utility.format_time (D * 60)) "Working..." "Pause Work"
               "Start Break"))).
Proof.
  intros w.
  exact (auto_start_chains_sessions "2024-06-03T09:25:00" w 4
           eq_refl eq_refl eq_refl eq_refl ltac:(discriminate)).
Defined.

(** X14. Stuck at zero.  A work session that has run out and left the timer
    idle at 0 (a completion with [auto_start] off ends like this) is not
    restarted by the work button: [toggle_work] only sets the state to
    ['running'], and from then on every round of [_update_loop] leaves the
    window exactly as it is, showing "Working..." over the unchanged
    clock; no completion is ever reported again. *)
Theorem work_button_stuck_at_zero (w : main_window) :
  let t := timer w in
  PomodoroTimer.session_type t = "work" ->
  PomodoroTimer.state t <> "running" ->
  PomodoroTimer.time_left t <= 0 ->
  let w1 := fst (toggle_work w) in
  toggle_work w = (w1, Done tt) /\
  PomodoroTimer.state (timer w1) = "running" /\
  PomodoroTimer.time_left (timer w1) = PomodoroTimer.time_left t /\
  forall now,
    _update_loop now w1 =
    (w1, Done (Ui (Utility.format_time (PomodoroTimer.time_left t))
                  "Working..." "Pause Work" "Start Break")).
Proof.
  destruct w as [t a ss]. cbn zeta. cbn [timer].
  intros Ew Er Hl.
  assert (toggle_work (Window t a ss) =
          (Window (PomodoroTimer.set_state "running" t) a ss, Done tt)) as E.
  { unfold toggle_work, bind, gets, ret, on_timer. loop_simpl.
    rewrite Ew. loop_simpl.
    destruct (String.eqb_spec (PomodoroTimer.state t) "running");
      [contradiction |].
    loop_simpl. rewrite start_eq. reflexivity. }
  rewrite E. cbn [fst timer]. repeat split.
  intros now. rewrite update_loop_eq. loop_simpl.
  rewrite tick_idle by (right; exact Hl). loop_simpl.
  rewrite update_ui_eq. loop_simpl. rewrite Ew. reflexivity.
Qed.

Lemma work_button_stuck_at_zero_witness :
  let w := fst (_update_loop "2024-06-03T09:25:00"
                  (Window (PomodoroTimer.Timer TIMER_DEFAULTS "running" "work"
                             1 0) (Some false) [])) in
  let t := timer w in
  let w1 := fst (toggle_work w) in
  toggle_work w = (w1, Done tt) /\
  PomodoroTimer.state (timer w1) = "running" /\
  PomodoroTimer.time_left (timer w1) = PomodoroTimer.time_left t /\
  forall now,
    _update_loop now w1 =
    (w1, Done (Ui (Utility.format_time (PomodoroTimer.time_left t))
                  "Working..." "Pause Work" "Start Break")).
Proof.
  intros w.
  apply (work_button_stuck_at_zero w);
    [reflexivity | vm_compute; discriminate | vm_compute; discriminate].
Defined.

End UpdateLoop.

(** * Properties of [SettingsWindow] *)

Section SettingsEntries.

Import MainWindow SettingsWindow App.

Variable int_ : string -> option Z.

(** The window with another settings dictionary. *)
Local Abbreviation with_settings s w :=
  (Window
     (PomodoroTimer.Timer s (PomodoroTimer.state (timer w))
        (PomodoroTimer.session_type (timer w))
        (PomodoroTimer.time_left (timer w))
        (PomodoroTimer.completed_sessions (timer w)))
     (auto_start w) (sessions w)).

Lemma with_settings_same (w : main_window) :
  with_settings (PomodoroTimer.settings (timer w)) w = w.
Proof. destruct w as [[se st ty tl c] a ss]. reflexivity. Qed.

Lemma check_entries_cons (key text : string) (rest : list (string * string))
    (w : main_window) :
  check_entries int_ ((key, text) :: rest) w =
  match accepted int_ text with
  | Some v =>
      match check_entries int_ rest
              (with_settings (<[key := v]> (PomodoroTimer.settings (timer w))) w)
      with
      | (w', Done rest') => (w', Done ((key, text) :: rest'))
      | (w', Raised e) => (w', Raised e)
      end
  | None =>
      match PomodoroTimer.settings (timer w) !! key with
      | Some old =>
          match check_entries int_ rest w with
          | (w', Done rest') => (w', Done ((key, Utility.str old) :: rest'))
          | (w', Raised e) => (w', Raised e)
          end
      | None => (w, Raised (KeyError key))
      end
  end.
Proof.
  destruct w as [[se st ty tl c] a ss].
  cbn [check_entries]. unfold accepted, revert, setitem_setting, bind,
    on_timer, modify, ret, PomodoroTimer.setting, getitem, set_timer.
  destruct (int_ text) as [v |]; [destruct (v <=? 0) |];
    cbn -[lookup insert Utility.str];
    try (destruct (se !! key) as [old |]; cbn -[lookup insert Utility.str];
         [| reflexivity]);
    now destruct (check_entries int_ rest _) as [w' [rest' | e]].
Qed.

Lemma accepted_positive (text : string) (v : Z) :
  accepted int_ text = Some v -> 0 < v.
Proof.
  unfold accepted. destruct (int_ text) as [x |]; [| discriminate].
  destruct (Z.leb_spec x 0); [discriminate |]. intros [= <-]. lia.
Qed.

(** What the loop over the entries does, entry by entry. *)
Lemma check_entries_spec (vars : list (string * string)) :
  forall w : main_window,
    NoDup (map fst vars) ->
    (forall k, In k (map fst vars) ->
               is_Some (PomodoroTimer.settings (timer w) !! k)) ->
    exists s' vars',
      check_entries int_ vars w = (with_settings s' w, Done vars') /\
      (forall k, ~ In k (map fst vars) ->
                 s' !! k = PomodoroTimer.settings (timer w) !! k) /\
      length vars' = length vars /\
      (forall (i : nat) key text,
          vars !! i = Some (key, text) ->
          exists old,
            PomodoroTimer.settings (timer w) !! key = Some old /\
            match accepted int_ text with
            | Some v => s' !! key = Some v /\ vars' !! i = Some (key, text)
            | None => s' !! key = Some old /\
                      vars' !! i = Some (key, Utility.str old)
            end).
Proof.
  induction vars as [| [key text] rest IH]; intros w Hnd Hin.
  - exists (PomodoroTimer.settings (timer w)), [].
    cbn [check_entries]. unfold ret. rewrite with_settings_same.
    repeat split. intros i key text H. discriminate.
  - cbn [map fst] in Hnd, Hin. apply NoDup_cons in Hnd as [Hkey Hnd].
    assert (~ In key (map fst rest)) as Hkey'
      by (intros Hc; apply Hkey; now apply list_elem_of_In).
    rewrite check_entries_cons.
    destruct (Hin key) as [old Hold]; [cbn; tauto |].
    destruct (accepted int_ text) as [v |] eqn:Hacc.
    + destruct (IH (with_settings
                      (<[key := v]> (PomodoroTimer.settings (timer w))) w) Hnd)
        as (s' & rest' & Hrun & Hother & Hlen & Hrest).
      { intros k Hk. cbn [timer PomodoroTimer.settings].
        destruct (decide (key = k)) as [-> | Hne];
          [now rewrite lookup_insert_eq | rewrite lookup_insert_ne by exact Hne].
        apply Hin. cbn. tauto. }
      cbn [timer auto_start sessions PomodoroTimer.settings PomodoroTimer.state
           PomodoroTimer.session_type PomodoroTimer.time_left
           PomodoroTimer.completed_sessions] in Hrun, Hother, Hrest.
      rewrite Hrun. exists s', ((key, text) :: rest').
      split; [reflexivity |]. split; [| split].
      * intros k Hk. cbn [map fst In] in Hk.
        rewrite Hother by tauto. apply lookup_insert_ne. tauto.
      * cbn. now rewrite Hlen.
      * intros [| i] key0 text0 H0; cbn in H0.
        -- injection H0 as <- <-. exists old. split; [exact Hold |].
           rewrite Hacc. split; [| reflexivity].
           rewrite Hother by exact Hkey'. apply lookup_insert_eq.
        -- assert (key0 <> key) as Hne.
           { intros ->. apply Hkey'. apply in_map_iff.
             exists (key, text0). split; [reflexivity |].
             apply list_elem_of_In. eapply list_elem_of_lookup_2. exact H0. }
           destruct (Hrest i key0 text0 H0) as (old0 & Hold0 & Hm).
           rewrite lookup_insert_ne in Hold0 by congruence.
           exists old0. split; [exact Hold0 |]. exact Hm.
    + rewrite Hold.
      destruct (IH w Hnd) as (s' & rest' & Hrun & Hother & Hlen & Hrest).
      { intros k Hk. apply Hin. cbn. tauto. }
      rewrite Hrun. exists s', ((key, Utility.str old) :: rest').
      split; [reflexivity |]. split; [| split].
      * intros k Hk. cbn [map fst In] in Hk. apply Hother. tauto.
      * cbn. now rewrite Hlen.
      * intros [| i] key0 text0 H0; cbn in H0.
        -- injection H0 as <- <-. exists old. split; [exact Hold |].
           rewrite Hacc. split; [| reflexivity].
           now rewrite Hother by exact Hkey'.
        -- exact (Hrest i key0 text0 H0).
Qed.

End SettingsEntries.

Section SettingsChange.

Import MainWindow SettingsWindow App.

Lemma zip_keys_in (l : list string) (texts : list string) (k : string) :
  In k (map fst (zip l texts)) -> In k l.
Proof.
  revert texts. induction l as [| x l IH]; intros [| y texts]; cbn; try tauto.
  intros [-> | H]; [tauto | right; eauto].
Qed.

Lemma zip_keys_nodup (l : list string) (texts : list string) :
  NoDup l -> NoDup (map fst (zip l texts)).
Proof.
  revert texts. induction l as [| x l IH]; intros [| y texts] H; cbn;
    try constructor.
  - apply NoDup_cons in H as [Hx _]. intros Hc. apply Hx.
    apply list_elem_of_In, (zip_keys_in l texts). now apply list_elem_of_In.
  - apply NoDup_cons in H as [_ H]. now apply IH.
Qed.

Lemma setting_keys_nodup : NoDup setting_keys.
Proof. unfold setting_keys. apply NoDup_ListNoDup. repeat constructor; cbn; intuition discriminate. Qed.

(** X15. Typing in the settings window.  When the four settings are present
    and positive, [_on_settings_change] raises nothing and touches nothing
    but the settings: every entry whose text is a positive integer stores
    that integer and keeps its text, every other entry keeps the stored
    value and shows it again; so the four settings are still present and
    positive afterwards.  The running countdown is not changed. *)
Theorem settings_change_effect (int_ : string -> option Z)
    (texts : list string) (w : main_window) :
  valid_settings (PomodoroTimer.settings (timer w)) ->
  let vars := zip setting_keys texts in
  exists s' vars',
    _on_settings_change int_ vars w =
      (Window
         (PomodoroTimer.Timer s' (PomodoroTimer.state (timer w))
            (PomodoroTimer.session_type (timer w))
            (PomodoroTimer.time_left (timer w))
            (PomodoroTimer.completed_sessions (timer w)))
         (auto_start w) (sessions w),
       Done vars') /\
    valid_settings s' /\
    length vars' = length vars /\
    forall (i : nat) key text,
      vars !! i = Some (key, text) ->
      exists old,
        PomodoroTimer.settings (timer w) !! key = Some old /\
        match accepted int_ text with
        | Some v => s' !! key = Some v /\ vars' !! i = Some (key, text)
        | None => s' !! key = Some old /\
                  vars' !! i = Some (key, Utility.str old)
        end.
Proof.
  intros Hv vars.
  destruct (check_entries_spec int_ vars w) as (s' & vars' & Hrun & Hother & Hlen & Hspec).
  { apply zip_keys_nodup, setting_keys_nodup. }
  { intros k Hk. apply zip_keys_in in Hk.
    destruct (Hv k Hk) as (v & -> & _). eauto. }
  exists s', vars'. split; [| split; [| split]].
  - unfold _on_settings_change, bind, _save_data, ret. now rewrite Hrun.
  - intros k Hk. destruct (Hv k Hk) as (old & Hold & Hpos).
    destruct (in_dec string_dec k (map fst vars)) as [Hin | Hout].
    + apply in_map_iff in Hin as ([k' text] & Hk' & Hin). cbn in Hk'. subst k'.
      apply list_elem_of_In, list_elem_of_lookup in Hin as [i Hi].
      destruct (Hspec i k text Hi) as (old' & Hold' & Hm).
      destruct (accepted int_ text) as [v |] eqn:Hacc.
      * exists v. split; [tauto |]. now apply (accepted_positive int_ text).
      * exists old. rewrite Hold in Hold'. injection Hold' as <-.
        split; [tauto | exact Hpos].
    + exists old. now rewrite (Hother k Hout).
  - exact Hlen.
  - exact Hspec.
Qed.

Lemma settings_change_effect_witness :
  let int_ := fun s : string =>
                if (s =? "30")%string then Some 30
                else if (s =? "-5")%string then Some (-5)
                else if (s =? "0")%string then Some 0 else None in
  let w := Window (PomodoroTimer.Timer TIMER_DEFAULTS "running" "work" 700 2)
                  (Some false) [] in
  let vars := zip setting_keys ["30"; "abc"; "-5"; "0"] in
  exists s' vars',
    _on_settings_change int_ vars w =
      (Window
         (PomodoroTimer.Timer s' (PomodoroTimer.state (timer w))
            (PomodoroTimer.session_type (timer w))
            (PomodoroTimer.time_left (timer w))
            (PomodoroTimer.completed_sessions (timer w)))
         (auto_start w) (sessions w),
       Done vars') /\
    valid_settings s' /\
    length vars' = length vars /\
    forall (i : nat) key text,
      vars !! i = Some (key, text) ->
      exists old,
        PomodoroTimer.settings (timer w) !! key = Some old /\
        match accepted int_ text with
        | Some v => s' !! key = Some v /\ vars' !! i = Some (key, text)
        | None => s' !! key = Some old /\
                  vars' !! i = Some (key, Utility.str old)
        end.
Proof.
  intros int_ w.
  apply (settings_change_effect int_ ["30"; "abc"; "-5"; "0"] w).
  intros k Hk. cbn in Hk.
  destruct Hk as [<- | [<- | [<- | [<- | []]]]];
    eexists; (split; [vm_compute; reflexivity | lia]).
Defined.

End SettingsChange.

(** * The application as a whole *)

Section AppInvariant.

Import MainWindow SettingsWindow App.

Variable int_ : string -> option Z.

Ltac healthy_now :=
  unfold healthy;
  cbn [timer auto_start sessions PomodoroTimer.settings PomodoroTimer.state
       PomodoroTimer.session_type PomodoroTimer.time_left
       PomodoroTimer.completed_sessions];
  repeat split; try assumption; try (cbn; tauto); try lia; try discriminate;
  try (cbn [In]; intuition congruence).

Lemma healthy_fields (se : gmap string Z) (st ty : string) (tl c : Z)
    (a : option bool) (ss : list StatsWindow.session) :
  healthy (Window (PomodoroTimer.Timer se st ty tl c) a ss) ->
  (st = "idle" \/ st = "running" \/ st = "paused") /\
  (ty = "work" \/ ty = "short_break" \/ ty = "long_break") /\
  0 <= tl /\ 0 <= c /\ valid_settings se /\
  (exists b, a = Some b) /\
  (exists D, se !! "work_duration" = Some D /\ 0 < D) /\
  (exists d, se !! "short_break" = Some d /\ 0 < d) /\
  (exists d, se !! "long_break" = Some d /\ 0 < d) /\
  (exists n, se !! "sessions_per_long_break" = Some n /\ 0 < n).
Proof.
  unfold healthy. cbn. intros (Hst & Hty & Htl & Hc & Hv & Ha).
  split; [destruct Hst as [<- | [<- | [<- | []]]]; tauto |].
  split; [destruct Hty as [<- | [<- | [<- | []]]]; tauto |].
  split; [exact Htl |]. split; [exact Hc |]. split; [exact Hv |].
  split; [destruct a as [b |]; [eauto | contradiction] |].
  repeat split; apply Hv; cbn; tauto.
Qed.

Lemma on_settings_change_ok (texts : list string) (w : main_window) :
  valid_settings (PomodoroTimer.settings (timer w)) ->
  exists s' vars',
    _on_settings_change int_ (zip setting_keys texts) w =
      (Window
         (PomodoroTimer.Timer s' (PomodoroTimer.state (timer w))
            (PomodoroTimer.session_type (timer w))
            (PomodoroTimer.time_left (timer w))
            (PomodoroTimer.completed_sessions (timer w)))
         (auto_start w) (sessions w),
       Done vars') /\
    valid_settings s'.
Proof.
  intros Hv.
  destruct (check_entries_spec int_ (zip setting_keys texts) w)
    as (s' & vars' & Hrun & Hother & Hlen & Hspec).
  { apply zip_keys_nodup, setting_keys_nodup. }
  { intros k Hk. apply zip_keys_in in Hk.
    destruct (Hv k Hk) as (v & -> & _). eauto. }
  exists s', vars'. split.
  - unfold _on_settings_change, bind, _save_data, ret. now rewrite Hrun.
  - intros k Hk. destruct (Hv k Hk) as (old & Hold & Hpos).
    destruct (in_dec string_dec k (map fst (zip setting_keys texts)))
      as [Hin | Hout].
    + apply in_map_iff in Hin as ([k' text] & Hk' & Hin). cbn in Hk'. subst k'.
      apply list_elem_of_In, list_elem_of_lookup in Hin as [i Hi].
      destruct (Hspec i k text Hi) as (old' & Hold' & Hm).
      destruct (accepted int_ text) as [v |] eqn:Hacc.
      * exists v. split; [tauto |]. now apply (accepted_positive int_ text).
      * exists old. rewrite Hold in Hold'. injection Hold' as <-.
        split; [tauto | exact Hpos].
    + exists old. now rewrite (Hother k Hout).
Qed.

Lemma next_break_is_break (c n : Z) :
  let b := if c =? 0 then "short_break"
           else if c mod n =? 0 then "long_break" else "short_break" in
  b = "short_break" \/ b = "long_break".
Proof.
  cbn zeta. destruct (c =? 0); [now left |].
  destruct (c mod n =? 0); [now right | now left].
Qed.

Lemma toggle_work_healthy (w : main_window) :
  healthy w -> exists w', toggle_work w = (w', Done tt) /\ healthy w'.
Proof.
  destruct w as [[se st ty tl c] a ss]. intros H.
  destruct (healthy_fields _ _ _ _ _ _ _ H)
    as (Hst & Hty & Htl & Hc & Hv & [b ->] & (D & HD & PD) & _).
  window_step.
  destruct (String.eqb_spec ty "work") as [Ew | Ew]; window_simpl.
  - destruct (String.eqb_spec st "running") as [Er | Er]; window_simpl.
    + rewrite pause_eq. window_simpl. rewrite Er. window_simpl.
      eexists. split; [reflexivity |]. healthy_now.
    + rewrite start_eq. window_simpl.
      eexists. split; [reflexivity |]. healthy_now.
  - rewrite set_session_work. window_simpl. rewrite HD. window_simpl.
    rewrite start_eq. window_simpl.
    eexists. split; [reflexivity |]. healthy_now.
Qed.

Lemma toggle_break_healthy (w : main_window) :
  healthy w -> exists w', toggle_break w = (w', Done tt) /\ healthy w'.
Proof.
  destruct w as [[se st ty tl c] a ss]. intros H.
  destruct (healthy_fields _ _ _ _ _ _ _ H)
    as (Hst & Hty & Htl & Hc & Hv & [b ->] & _ & (ds & Hds & Pds)
        & (dl & Hdl & Pdl) & (n & Hn & Pn)).
  window_step.
  destruct (String.eqb_spec ty "work") as [Ew | Ew]; window_simpl.
  - rewrite (next_break_value _ n) by (try exact Hn; lia). window_simpl.
    destruct (next_break_is_break c n) as [E | E]; rewrite E;
      rewrite set_session_break by tauto; window_simpl;
      rewrite ?Hds, ?Hdl; window_simpl; rewrite start_eq; window_simpl;
      (eexists; split; [reflexivity |]); healthy_now.
  - destruct (String.eqb_spec st "running") as [Er | Er]; window_simpl.
    + rewrite pause_eq. window_simpl. rewrite Er. window_simpl.
      eexists. split; [reflexivity |]. healthy_now.
    + rewrite start_eq. window_simpl.
      eexists. split; [reflexivity |]. healthy_now.
Qed.

Lemma update_loop_healthy (now : string) (w : main_window) :
  healthy w -> exists w' u, _update_loop now w = (w', Done u) /\ healthy w'.
Proof.
  destruct w as [[se st ty tl c] a ss]. intros H.
  destruct (healthy_fields _ _ _ _ _ _ _ H)
    as (Hst & Hty & Htl & Hc & Hv & [b ->] & (D & HD & PD) & (ds & Hds & Pds)
        & (dl & Hdl & Pdl) & (n & Hn & Pn)).
  set (t := PomodoroTimer.Timer se st ty tl c).
  assert (forall w1, healthy w1 -> exists w' u,
            _update_ui w1 = (w', Done u) /\ healthy w') as Hui.
  { intros w1 H1. destruct (update_ui_done w1) as [u Hu].
    - destruct w1 as [[se1 st1 ty1 tl1 c1] a1 ss1].
      now destruct (healthy_fields _ _ _ _ _ _ _ H1) as (Hs1 & _).
    - eauto. }
  rewrite update_loop_eq. loop_simpl.
  destruct (String.eqb_spec st "running") as [Er | Er].
  2:{ rewrite (tick_idle t) by now left. loop_simpl. now apply Hui. }
  destruct (Z.le_gt_cases tl 0) as [Hl | Hl].
  { rewrite (tick_idle t) by now right. loop_simpl. now apply Hui. }
  destruct (Z.eq_dec tl 1) as [E1 | N1].
  2:{ rewrite (tick_count t) by (try assumption; cbn; lia).
      window_simpl. apply Hui. healthy_now. }
  destruct (String.eqb_spec ty "work") as [Ew | Ew].
  - rewrite (tick_work_complete t Er E1 Ew). loop_simpl.
    rewrite (next_break_value _ n) by (try exact Hn; lia). loop_simpl.
    rewrite completion_details_work. loop_simpl.
    destruct b; loop_simpl.
    + destruct (next_break_is_break (c + 1) n) as [E | E]; rewrite E;
        rewrite set_session_break by tauto; window_simpl;
        rewrite ?Hds, ?Hdl; window_simpl; apply Hui; healthy_now.
    + apply Hui. healthy_now.
  - rewrite (tick_break_complete t Er E1 Ew). loop_simpl.
    rewrite (next_break_value _ n) by (try exact Hn; lia). loop_simpl.
    rewrite completion_details_break. loop_simpl.
    destruct b; loop_simpl.
    + rewrite set_session_work. window_simpl. rewrite HD. window_simpl.
      apply Hui. healthy_now.
    + apply Hui. healthy_now.
Qed.

Lemma call_healthy (a : action) (w : main_window) :
  healthy w -> exists w', call int_ a w = (w', Done tt) /\ healthy w'.
Proof.
  intros H. destruct a; cbn [call].
  - now apply toggle_work_healthy.
  - now apply toggle_break_healthy.
  - destruct w as [[se st ty tl c] a ss].
    destruct (healthy_fields _ _ _ _ _ _ _ H)
      as (Hst & Hty & Htl & Hc & Hv & [b ->] & (D & HD & PD) & _).
    unfold reset_timer, on_timer.
    rewrite (reset_eq _ D) by exact HD. window_simpl.
    eexists. split; [reflexivity |]. healthy_now.
  - destruct (update_loop_healthy now w H) as (w' & u & -> & Hw'). eauto.
  - destruct w as [[se st ty tl c] a ss].
    destruct (healthy_fields _ _ _ _ _ _ _ H)
      as (Hst & Hty & Htl & Hc & Hv & [b ->] & _).
    unfold _toggle_auto_start, bind, get_auto_start, modify, _save_data, ret.
    window_simpl. eexists. split; [reflexivity |]. healthy_now.
  - destruct w as [[se st ty tl c] a ss].
    destruct (healthy_fields _ _ _ _ _ _ _ H)
      as (Hst & Hty & Htl & Hc & Hv & [b ->] & _).
    destruct (on_settings_change_ok texts
                (Window (PomodoroTimer.Timer se st ty tl c) (Some b) ss) Hv)
      as (s' & vars' & -> & Hv').
    eexists. split; [reflexivity |]. healthy_now.
  - destruct w as [[se st ty tl c] a ss].
    destruct (healthy_fields _ _ _ _ _ _ _ H)
      as (Hst & Hty & Htl & Hc & Hv & [b ->] & _).
    unfold reset_stats, bind, modify, _save_data, ret.
    destruct confirmed; window_simpl;
      (eexists; split; [reflexivity |]); healthy_now.
Qed.

Lemma perform_healthy (acts : list action) :
  forall w, healthy w ->
            snd (perform int_ acts w) = true /\
            healthy (fst (perform int_ acts w)).
Proof.
  induction acts as [| a acts IH]; intros w H; cbn [perform].
  - now split.
  - destruct (call_healthy a w H) as (w' & -> & H'). now apply IH.
Qed.

End AppInvariant.

Section AppClaims.

Import MainWindow SettingsWindow App.

(** X16. Started with the four settings present and positive and with an
    [auto_start] entry (the defaults are such), the application stays in
    good order whatever the user does and however long the clock runs:
    after any list of button presses, settings edits, statistics resets and
    rounds of [_update_loop], no call has raised ([KeyError] from
    [set_session], [_update_ui] or the settings, [ZeroDivisionError] from
    the cadence), the state is one of idle, running, paused, the session
    type is one of the three, [time_left] and [completed_sessions] are not
    negative, and the settings are still present and positive. *)
Theorem application_stays_healthy (int_ : string -> option Z)
    (acts : list action) (w : main_window) :
  healthy w ->
  snd (perform int_ acts w) = true /\ healthy (fst (perform int_ acts w)).
Proof. intros H. now apply perform_healthy. Qed.

Lemma application_stays_healthy_witness :
  let int_ := fun s : string => if (s =? "1")%string then Some 1 else None in
  let w := Window (PomodoroTimer.Timer TIMER_DEFAULTS "idle" "work" 1500 0)
                  (Some false) [] in
  let acts := [SettingsChange ["1"; "x"; "1"; "1"]; ResetTimer; ToggleWork;
               ToggleAutoStart; UpdateLoop "2024-06-03T09:00:00";
               ToggleBreak; ResetStats true] in
  snd (perform int_ acts w) = true /\ healthy (fst (perform int_ acts w)).
Proof.
  intros int_ w acts.
  apply (application_stays_healthy int_ acts w).
  unfold healthy. cbn [w timer auto_start sessions PomodoroTimer.settings
    PomodoroTimer.state PomodoroTimer.session_type PomodoroTimer.time_left
    PomodoroTimer.completed_sessions].
  repeat split; try (cbn; tauto); try lia; try discriminate.
  intros k Hk. cbn in Hk.
  destruct Hk as [<- | [<- | [<- | [<- | []]]]];
    eexists; (split; [vm_compute; reflexivity | lia]).
Defined.

End AppClaims.

(** * Further properties of the statistics window *)

Section WeekEdges.

Import datetime StatsWindow WeekSpec StatsNavigation.

Lemma timedelta_inv (days r : Z) : timedelta days = Done r -> r = days.
Proof.
  unfold timedelta. destruct (Z.abs days >? 999999999); [discriminate |].
  now intros [= <-].
Qed.

Lemma date_add_inv (d delta r : Z) :
  date_add d delta = Done r -> r = d + delta /\ 0 < r <= _MAXORDINAL.
Proof.
  unfold date_add. cbn zeta.
  destruct (Z.ltb_spec 0 (d + delta)); [| discriminate].
  destruct (Z.leb_spec (d + delta) _MAXORDINAL); [| discriminate].
  intros [= <-]. lia.
Qed.

Lemma date_add_out (d delta : Z) :
  ~ (0 < d + delta <= _MAXORDINAL) ->
  date_add d delta = Raised OverflowError.
Proof.
  intros H. unfold date_add. cbn zeta.
  destruct (Z.ltb_spec 0 (d + delta)); [| reflexivity].
  destruct (Z.leb_spec (d + delta) _MAXORDINAL); [lia | reflexivity].
Qed.

Lemma timedelta_cases (days : Z) :
  timedelta days = Done days \/ timedelta days = Raised OverflowError.
Proof. unfold timedelta. destruct (Z.abs days >? 999999999); tauto. Qed.

(** A display that was produced shows the week of the offset. *)
Lemma update_display_window (parse : string -> outcome datetime) 
    (today week_offset : Z)
    (sessions : list session) (d : display) :
  _update_display parse today week_offset sessions = Done d ->
  start_of_week d = today - weekday today + 7 * week_offset /\
  end_of_week d = start_of_week d + 6 /\
  0 < start_of_week d /\ end_of_week d <= _MAXORDINAL.
Proof.
  unfold _update_display, date_sub.
  destruct (timedelta (weekday today)) as [back |] eqn:E1;
    [| discriminate]. apply timedelta_inv in E1. subst back. cbn [obind].
  destruct (timedelta (- weekday today)) as [neg |] eqn:E2;
    [| discriminate]. apply timedelta_inv in E2. subst neg. cbn [obind].
  destruct (date_add today (- weekday today)) as [monday |] eqn:E3;
    [| discriminate]. apply date_add_inv in E3 as [-> _]. cbn [obind].
  destruct (timedelta (7 * week_offset)) as [shift |] eqn:E4;
    [| discriminate]. apply timedelta_inv in E4. subst shift. cbn [obind].
  destruct (date_add _ (7 * week_offset)) as [start_ |] eqn:E5;
    [| discriminate]. apply date_add_inv in E5 as [Es Hs]. cbn [obind].
  destruct (timedelta 6) as [six |] eqn:E6; [| discriminate].
  apply timedelta_inv in E6. subst six. cbn [obind].
  destruct (date_add start_ 6) as [end_ |] eqn:E7; [| discriminate].
  apply date_add_inv in E7 as [Ee He]. cbn [obind].
  destruct (count_sessions parse start_ end_ sessions _) as [counts |];
    [| discriminate].
  cbn [obind]. intros [= <-]. cbn. lia.
Qed.

(** X17. The week must fit the calendar.  When the Monday of the requested
    week or its Sunday is not a date between 0001-01-01 and 9999-12-31,
    [_update_display] raises [OverflowError], whatever the sessions are and
    before any timestamp is parsed. *)
Theorem update_display_out_of_range (parse : string -> outcome datetime) 
    (today week_offset : Z)
    (sessions : list session) :
  0 < today <= _MAXORDINAL ->
  let start_ := today - weekday today + 7 * week_offset in
  ~ (0 < start_ /\ start_ + 6 <= _MAXORDINAL) ->
  _update_display parse today week_offset sessions = Raised OverflowError.
Proof.
  intros Htoday start_ Hout.
  pose proof (weekday_range today) as Hwd.
  pose proof (monday_positive today (proj1 Htoday)) as Hmon.
  unfold _update_display, date_sub.
  rewrite (timedelta_ok (weekday today)) by lia. cbn [obind].
  rewrite (timedelta_ok (- weekday today)) by lia. cbn [obind].
  rewrite (date_add_ok today (- weekday today)) by lia. cbn [obind].
  destruct (timedelta_cases (7 * week_offset)) as [-> | ->];
    [| reflexivity].
  cbn [obind].
  destruct (Z.lt_ge_cases 0 start_) as [Hlo | Hlo].
  2:{ rewrite date_add_out by (subst start_; lia). reflexivity. }
  destruct (Z.le_gt_cases start_ _MAXORDINAL) as [Hhi | Hhi].
  2:{ rewrite date_add_out by (subst start_; lia). reflexivity. }
  rewrite date_add_ok by (subst start_; lia). cbn [obind].
  rewrite (timedelta_ok 6) by lia. cbn [obind].
  rewrite date_add_out by (subst start_; lia). reflexivity.
Qed.

Lemma update_display_out_of_range_witness :
  let start_ := 3652059 - weekday 3652059 + 7 * 0 in
  _update_display fromisoformat 3652059 0 [Session "2024-06-03T09:00:00"] =
  Raised OverflowError.
Proof.
  intros start_.
  apply (update_display_out_of_range fromisoformat 3652059 0
           [Session "2024-06-03T09:00:00"]).
  - unfold _MAXORDINAL. lia.
  - vm_compute. intros [_ H]. apply H. reflexivity.
Defined.

(** Inside the calendar the method is its counting loop. *)
Lemma update_display_in_range (parse : string -> outcome datetime)
    (today week_offset : Z) (sessions : list session) :
  0 < today <= _MAXORDINAL ->
  let start_ := today - weekday today + 7 * week_offset in
  0 < start_ ->
  start_ + 6 <= _MAXORDINAL ->
  _update_display parse today week_offset sessions =
  obind (count_sessions parse start_ (start_ + 6) sessions (replicate 7 0))
        (fun counts => Done (Display start_ (start_ + 6) counts (sum counts))).
Proof.
  intros Htoday start_ Hlo Hhi.
  pose proof (weekday_range today) as Hwd.
  pose proof (monday_positive today (proj1 Htoday)) as Hmon.
  unfold _update_display, date_sub.
  rewrite (timedelta_ok (weekday today)) by lia. cbn [obind].
  rewrite (timedelta_ok (- weekday today)) by lia. cbn [obind].
  rewrite (date_add_ok today (- weekday today)) by lia. cbn [obind].
  rewrite (timedelta_ok (7 * week_offset))
    by (unfold _MAXORDINAL in *; subst start_; lia).
  cbn [obind].
  rewrite (date_add_ok (today + - weekday today) (7 * week_offset))
    by (subst start_; lia).
  cbn [obind]. rewrite (timedelta_ok 6) by lia. cbn [obind].
  rewrite (date_add_ok (today + - weekday today + 7 * week_offset) 6)
    by (subst start_; lia).
  cbn [obind].
  now replace (today + - weekday today + 7 * week_offset) with start_
    by (subst start_; lia).
Qed.

Lemma count_sessions_app (parse : string -> outcome datetime) 
    (start_ end_ : Z) (pre rest : list session) :
  forall counts,
    count_sessions parse start_ end_ (pre ++ rest) counts =
    obind (count_sessions parse start_ end_ pre counts)
          (count_sessions parse start_ end_ rest).
Proof.
  induction pre as [| s pre IH]; intros counts; [reflexivity |].
  cbn [app count_sessions].
  destruct (parse (timestamp s)) as [dt |]; [| reflexivity]. cbn [obind].
  cbn zeta.
  destruct ((start_ <=? dt_date dt) && (dt_date dt <=? end_)); [| apply IH].
  destruct (incr_item counts (weekday (dt_date dt))) as [counts1 |];
    [| reflexivity].
  cbn [obind]. apply IH.
Qed.

(** X18. One bad timestamp spoils every week.  If the week is representable
    and some session's timestamp does not parse while all sessions before
    it do, [_update_display] raises the parser's exception, also when that
    session would not belong to the week shown. *)
Theorem malformed_timestamp_breaks_display (parse : string -> outcome datetime) 
    (today week_offset : Z)
    (pre post : list session) (s : session) (e : exn) :
  0 < today <= _MAXORDINAL ->
  let start_ := today - weekday today + 7 * week_offset in
  0 < start_ ->
  start_ + 6 <= _MAXORDINAL ->
  Forall (fun x => exists dt, parse (timestamp x) = Done dt) pre ->
  parse (timestamp s) = Raised e ->
  _update_display parse today week_offset (pre ++ s :: post) = Raised e.
Proof.
  intros Htoday start_ Hlo Hhi Hpre Hbad.
  rewrite update_display_in_range by assumption. fold start_.
  rewrite count_sessions_app.
  destruct (count_sessions_spec parse start_ pre (replicate 7 0))
    as (counts & -> & _); [reflexivity | exact Hpre |].
  cbn [obind count_sessions]. rewrite Hbad. reflexivity.
Qed.

Lemma malformed_timestamp_breaks_display_witness :
  let start_ := 739042 - weekday 739042 + 7 * 0 in
  _update_display fromisoformat 739042 0
    ([Session "2024-06-03T09:00:00"]
     ++ Session "yesterday" :: [Session "2024-06-05T09:00:00"]) =
  Raised ValueError.
Proof.
  intros start_.
  apply (malformed_timestamp_breaks_display fromisoformat 739042 0
           [Session "2024-06-03T09:00:00"] [Session "2024-06-05T09:00:00"]
           (Session "yesterday") ValueError).
  - unfold _MAXORDINAL. lia.
  - vm_compute. reflexivity.
  - vm_compute. discriminate.
  - repeat (constructor; [eexists; vm_compute; reflexivity |]). constructor.
  - vm_compute. reflexivity.
Defined.

(** The display depends on the clock only through the Monday of the
    current week. *)
Lemma update_display_same_week (parse : string -> outcome datetime)
    (today today' week_offset : Z) (sessions : list session) :
  today' - weekday today' = today - weekday today ->
  _update_display parse today' week_offset sessions =
  _update_display parse today week_offset sessions.
Proof.
  intros H.
  pose proof (weekday_range today) as Hw.
  pose proof (weekday_range today') as Hw'.
  unfold _update_display, date_sub.
  rewrite (timedelta_ok (weekday today)), (timedelta_ok (weekday today'))
    by lia.
  cbn [obind].
  rewrite (timedelta_ok (- weekday today)), (timedelta_ok (- weekday today'))
    by lia.
  cbn [obind]. unfold date_add at 1 4. cbn zeta.
  replace (today' + - weekday today') with (today + - weekday today) by lia.
  reflexivity.
Qed.

(** X19. Moving between weeks.  Suppose the clock's date stays within one
    Monday-to-Sunday week over the refreshes.  If the display of a week was
    produced and [_change_week(1)] then produces one, whatever the session
    list has become in between, the new week starts on the Monday right
    after the old week's Sunday, so consecutive weeks neither overlap nor
    leave a day out.  A following [_change_week(-1)] restores the old
    offset and, when the session list is again the one first shown, the
    old display. *)
Theorem change_week_tiles_calendar (parse : string -> outcome datetime)
    (today1 today2 today3 week_offset : Z) (sessions1 sessions2 : list session)
    (d1 d2 : display) :
  today2 - weekday today2 = today1 - weekday today1 ->
  today3 - weekday today3 = today1 - weekday today1 ->
  _update_display parse today1 week_offset sessions1 = Done d1 ->
  snd (_change_week parse today2 sessions2 1 week_offset) = Done d2 ->
  start_of_week d2 = end_of_week d1 + 1 /\
  end_of_week d2 = end_of_week d1 + 7 /\
  weekday (start_of_week d2) = 0 /\
  _change_week parse today3 sessions1 (-1)
    (fst (_change_week parse today2 sessions2 1 week_offset)) =
  (week_offset, Done d1).
Proof.
  intros W2 W3 H1 H2. unfold _change_week in *. cbn [fst snd] in *.
  apply update_display_window in H2 as (S2 & E2 & _).
  pose proof (update_display_window _ _ _ _ _ H1) as (S1 & E1 & _).
  split; [lia |]. split; [lia |]. split.
  - rewrite S2. unfold weekday. Z.div_mod_to_equations. lia.
  - replace (week_offset + 1 + -1) with week_offset by lia.
    now rewrite (update_display_same_week parse today1 today3), H1.
Qed.

Lemma change_week_tiles_calendar_witness :
  let sessions1 := [Session "2024-06-03T09:00:00";
                    Session "2024-06-12T09:00:00"] in
  let sessions2 := (sessions1 ++ [Session "2024-06-09T23:30:00"])%list in
  let d1 := Display 739040 739046 [1; 0; 0; 0; 0; 0; 0] 1 in
  let d2 := Display 739047 739053 [0; 0; 1; 0; 0; 0; 0] 1 in
  _update_display fromisoformat 739042 0 sessions1 = Done d1 /\
  snd (_change_week fromisoformat 739046 sessions2 1 0) = Done d2 /\
  start_of_week d2 = end_of_week d1 + 1 /\
  end_of_week d2 = end_of_week d1 + 7 /\
  weekday (start_of_week d2) = 0 /\
  _change_week fromisoformat 739040 sessions1 (-1)
    (fst (_change_week fromisoformat 739046 sessions2 1 0)) =
  (0, Done d1).
Proof.
  intros sessions1 sessions2 d1 d2.
  assert (_update_display fromisoformat 739042 0 sessions1 = Done d1) as H1
    by (vm_compute; reflexivity).
  assert (snd (_change_week fromisoformat 739046 sessions2 1 0) = Done d2)
    as H2 by (vm_compute; reflexivity).
  split; [exact H1 |]. split; [exact H2 |].
  apply (change_week_tiles_calendar fromisoformat 739042 739046 739040 0
           sessions1 sessions2 d1 d2);
    [vm_compute; reflexivity | vm_compute; reflexivity | exact H1 | exact H2].
Defined.

(** X20. A new record is counted once, on its own day.  For sessions whose
    timestamps parse and a representable week, appending one more session
    dated [d] changes the display of that week as follows: if [d] lies in
    the week, the bucket of [d]'s weekday and the total go up by 1 and the
    other buckets stay; if not, the display is the same.  A session stamped
    today always lies in the current week (offset 0). *)
Theorem appended_session_counted_once (parse : string -> outcome datetime)
    (today week_offset : Z) (sessions : list session) (s : session)
    (dt : datetime) :
  0 < today <= _MAXORDINAL ->
  let start_ := today - weekday today + 7 * week_offset in
  0 < start_ ->
  start_ + 6 <= _MAXORDINAL ->
  Forall (fun x => exists dt', parse (timestamp x) = Done dt') sessions ->
  parse (timestamp s) = Done dt ->
  let inside := (start_ <=? dt_date dt) && (dt_date dt <=? start_ + 6) in
  let day := Z.to_nat (weekday (dt_date dt)) in
  exists counts c,
    _update_display parse today week_offset sessions =
      Done (Display start_ (start_ + 6) counts (sum counts)) /\
    counts !! day = Some c /\
    _update_display parse today week_offset (sessions ++ [s]) =
      (if inside
       then Done (Display start_ (start_ + 6) (<[day := c + 1]> counts)
                    (sum counts + 1))
       else Done (Display start_ (start_ + 6) counts (sum counts))) /\
    (week_offset = 0 -> dt_date dt = today -> inside = true).
Proof.
  intros Htoday start_ Hlo Hhi Hall Hs inside day.
  pose proof (weekday_range today) as Hwd.
  pose proof (weekday_range (dt_date dt)) as Hw.
  destruct (count_sessions_spec parse start_ sessions (replicate 7 0))
    as (counts & Hrun & Hlen & _); [reflexivity | exact Hall |].
  destruct (incr_item_ok counts (weekday (dt_date dt))) as (c & Hc & Hi);
    [rewrite Hlen; lia |].
  exists counts, c.
  rewrite !update_display_in_range by assumption. fold start_.
  rewrite count_sessions_app, Hrun. cbn [obind].
  split; [reflexivity |]. split; [exact Hc |]. split.
  - cbn [count_sessions]. rewrite Hs. cbn [obind]. cbn zeta. fold inside.
    destruct inside; [| reflexivity].
    rewrite Hi. cbn [obind]. now rewrite (sum_insert counts _ c Hc).
  - intros -> Ed. subst inside start_. rewrite Ed.
    apply andb_true_intro. split; apply Z.leb_le; lia.
Qed.

Lemma appended_session_counted_once_witness :
  let sessions := [Session "2024-06-03T09:00:00"] in
  let s := Session "2024-06-05T10:00:00" in
  let dt := DateTime 739042 10 0 0 0 in
  let start_ := 739042 - weekday 739042 + 7 * 0 in
  let inside := (start_ <=? dt_date dt) && (dt_date dt <=? start_ + 6) in
  let day := Z.to_nat (weekday (dt_date dt)) in
  exists counts c,
    _update_display fromisoformat 739042 0 sessions =
      Done (Display start_ (start_ + 6) counts (sum counts)) /\
    counts !! day = Some c /\
    _update_display fromisoformat 739042 0 (sessions ++ [s]) =
      (if inside
       then Done (Display start_ (start_ + 6) (<[day := c + 1]> counts)
                    (sum counts + 1))
       else Done (Display start_ (start_ + 6) counts (sum counts))) /\
    (0 = 0 -> dt_date dt = 739042 -> inside = true).
Proof.
  intros sessions s dt.
  apply (appended_session_counted_once fromisoformat 739042 0 sessions s dt).
  - unfold _MAXORDINAL. lia.
  - vm_compute. reflexivity.
  - vm_compute. discriminate.
  - repeat (constructor; [eexists; vm_compute; reflexivity |]). constructor.
  - vm_compute. reflexivity.
Defined.

(** X21. Resetting the statistics.  Declined, [reset_stats] changes
    nothing.  Confirmed, it empties the session list and leaves the timer
    and [auto_start] alone; every representable week then shows seven zeros
    and total 0. *)
Theorem reset_stats_clears_history (parse : string -> outcome datetime)
    (today week_offset : Z) (w : MainWindow.main_window) :
  0 < today <= _MAXORDINAL ->
  let start_ := today - weekday today + 7 * week_offset in
  0 < start_ ->
  start_ + 6 <= _MAXORDINAL ->
  MainWindow.reset_stats false w = (w, Done tt) /\
  MainWindow.reset_stats true w =
    (MainWindow.Window (MainWindow.timer w) (MainWindow.auto_start w) [],
     Done tt) /\
  _update_display parse today week_offset
    (MainWindow.sessions (fst (MainWindow.reset_stats true w))) =
  Done (Display start_ (start_ + 6) [0; 0; 0; 0; 0; 0; 0] 0).
Proof.
  intros Htoday start_ Hlo Hhi.
  split; [reflexivity |]. split; [reflexivity |].
  cbn [MainWindow.reset_stats bind modify fst MainWindow.set_sessions
       MainWindow._save_data ret MainWindow.sessions].
  rewrite update_display_in_range by assumption. reflexivity.
Qed.

Lemma reset_stats_clears_history_witness :
  let w := MainWindow.Window
             (PomodoroTimer.Timer TIMER_DEFAULTS "running" "work" 42 3)
             (Some true) [Session "2024-06-03T09:00:00"] in
  let start_ := 739042 - weekday 739042 + 7 * (-2) in
  MainWindow.reset_stats false w = (w, Done tt) /\
  MainWindow.reset_stats true w =
    (MainWindow.Window (MainWindow.timer w) (MainWindow.auto_start w) [],
     Done tt) /\
  _update_display fromisoformat 739042 (-2)
    (MainWindow.sessions (fst (MainWindow.reset_stats true w))) =
  Done (Display start_ (start_ + 6) [0; 0; 0; 0; 0; 0; 0] 0).
Proof.
  intros w.
  apply (reset_stats_clears_history fromisoformat 739042 (-2) w).
  - unfold _MAXORDINAL. lia.
  - vm_compute. reflexivity.
  - vm_compute. discriminate.
Defined.

Lemma how_many_le {A} (f g : A -> bool) (l : list A) :
  (forall x, f x = true -> g x = true) ->
  0 <= how_many f l <= how_many g l /\ how_many g l <= Z.of_nat (length l).
Proof.
  intros Hfg. induction l as [| x l IH].
  - unfold how_many. cbn. lia.
  - rewrite !how_many_cons. cbn [length].
    specialize (Hfg x). destruct (f x), (g x); try lia;
      discriminate Hfg; reflexivity.
Qed.

(** X22. The numbers of a display are consistent: for sessions whose
    timestamps parse and a representable week, no bucket is negative, no
    bucket exceeds the weekly total, and the total does not exceed the
    number of sessions. *)
Theorem buckets_bounded (parse : string -> outcome datetime)
    (today week_offset : Z) (sessions : list session) :
  0 < today <= _MAXORDINAL ->
  let start_ := today - weekday today + 7 * week_offset in
  0 < start_ ->
  start_ + 6 <= _MAXORDINAL ->
  Forall (fun x => exists dt, parse (timestamp x) = Done dt) sessions ->
  exists d,
    _update_display parse today week_offset sessions = Done d /\
    Forall (fun c => 0 <= c <= total d) (counts_per_day d) /\
    0 <= total d <= Z.of_nat (length sessions).
Proof.
  intros Htoday start_ Hlo Hhi Hall.
  destruct (update_display_spec parse today week_offset sessions
              Htoday Hlo Hhi Hall)
    as (counts & Hrun & Hlen & Hlook & Hsum).
  fold start_ in Hrun, Hlook, Hsum.
  eexists. split; [exact Hrun |]. cbn [counts_per_day total].
  rewrite Hsum. split.
  - apply Forall_lookup. intros i c Hi.
    assert (i < 7)%nat as Hlt by (apply lookup_lt_Some in Hi; lia).
    rewrite (Hlook i Hlt) in Hi. injection Hi as <-.
    apply (how_many_le (on_day parse start_ (Z.of_nat i))
             (in_week parse start_) sessions).
    intros x. unfold on_day, in_week.
    destruct (date_of parse x); [| discriminate].
    intros H. apply andb_true_iff in H. tauto.
  - pose proof (how_many_le (in_week parse start_) (in_week parse start_)
                  sessions (fun x H => H)). lia.
Qed.

Lemma buckets_bounded_witness :
  let sessions := [Session "2024-06-03T09:00:00"; Session "2024-06-03T10:00:00";
                   Session "2024-05-01T10:00:00"] in
  exists d,
    _update_display fromisoformat 739042 0 sessions = Done d /\
    Forall (fun c => 0 <= c <= total d) (counts_per_day d) /\
    0 <= total d <= Z.of_nat (length sessions).
Proof.
  intros sessions.
  apply (buckets_bounded fromisoformat 739042 0 sessions).
  - unfold _MAXORDINAL. lia.
  - vm_compute. reflexivity.
  - vm_compute. discriminate.
  - repeat (constructor; [eexists; vm_compute; reflexivity |]). constructor.
Defined.

End WeekEdges.
